(** * Mars landing fuel management: the monitoring pipeline of [mars_landing.py]

    A shallow embedding of class [MarsLandingFuelSystem] and of the tables it
    reads, followed by the properties of its four pipeline stages and of the
    monitoring cycle.

    Numbers.  The Python code computes on [float] (and a few [int] constants).
    They are embedded as exact rationals [Q]: every finite value the code can
    hold, with the arithmetic carried out without rounding.  The only
    non-finite value the code ever writes, [float('inf')], is the
    time-to-depletion sentinel; the field that may hold it has the type
    [extended].  Python's [/] raises [ZeroDivisionError] on a zero divisor, so
    division is the one fallible primitive and every method runs in a
    state-and-exception monad over the object [self]. *)

From Stdlib Require Import QArith Qabs Qminmax Lqa.
From Stdlib Require Floats.
From stdpp Require Import strings gmap pretty.

Open Scope Q_scope.

(** ** Python primitives *)

Inductive exn : Type :=
| ZeroDivisionError.

Inductive result (A : Type) : Type :=
| Ok (a : A)
| Raise (e : exn).

Arguments Ok {A} a.
Arguments Raise {A} e.

(** [x < y] and [x <= y] as Python evaluates them, to a [bool]. *)
Definition Qlt_bool (x y : Q) : bool := negb (Qle_bool y x).

Infix "<?" := Qlt_bool (at level 70, no associativity) : Q_scope.
Infix "<=?" := Qle_bool (at level 70, no associativity) : Q_scope.

(** Python's [max(a, b)]: the first argument unless the second is greater. *)
Definition pymax (a b : Q) : Q := if a <? b then b else a.

(** [dict.get(key, default)]. *)
Definition dict_get {V : Type} (d : gmap string V) (key : string) (dflt : V) : V :=
  match d !! key with
  | Some v => v
  | None => dflt
  end.

(** A float that may be [float('inf')]. *)
Inductive extended : Type :=
| Fin (q : Q)
| PosInf.

(** [t < bound] for a finite [bound]: [inf] is below nothing. *)
Definition ext_lt_bool (t : extended) (bound : Q) : bool :=
  match t with
  | Fin q => q <? bound
  | PosInf => false
  end.

(** *** Format specifications [.1f] and [+.1f]

    The f-strings of [generate_alerts] print one decimal.  The value is
    rounded to the nearest tenth, ties to the even tenth, and a negative value
    keeps its sign even when it rounds to zero, as Python's [format] does. *)

Definition round_tenths (x : Q) : Z :=
  let n := (Z.abs (Qnum x) * 10)%Z in
  let d := Zpos (Qden x) in
  let q := (n / d)%Z in
  let r := (n mod d)%Z in
  if (2 * r <? d)%Z then q
  else if (d <? 2 * r)%Z then (q + 1)%Z
  else if Z.even q then q else (q + 1)%Z.

Definition format_1f (plus : bool) (x : Q) : string :=
  let t := round_tenths x in
  let sign := if (Qnum x <? 0)%Z then "-" else if plus then "+" else "" in
  sign +:+ pretty (t / 10)%Z +:+ "." +:+ pretty (t mod 10)%Z.

Definition format_1f_ext (t : extended) : string :=
  match t with
  | Fin q => format_1f false q
  | PosInf => "inf"
  end.

(** ** Constants *)

Definition GRAVITY_MARS : Q := 3.71.
Definition SAFE_RESERVE : Q := 100.
Definition BURN_RATE_TOLERANCE : Q := 0.15.
Definition ALERT_THRESHOLD : Q := 30.
Definition UPDATE_FREQUENCY : Q := 0.5.

(** ** Data structures *)

Record MissionPhase : Type := mkMissionPhase {
  name : string;
  nominal_burn_rate : Q;
  duration : Q;
  gravity_loss_factor : Q
}.

Record ConsumptionData : Type := mkConsumptionData {
  actual_burn_rate : Q;
  deviation_percent : Q;
  anomaly_flag : bool;
  current_fuel : Q
}.

(** One entry of [FuelPrediction.breakdown]: the dict with the keys
    ["phase"], ["fuel_required"] and ["duration"]. *)
Record BreakdownEntry : Type := mkBreakdownEntry {
  bd_phase : string;
  bd_fuel_required : Q;
  bd_duration : Q
}.

Record FuelPrediction : Type := mkFuelPrediction {
  required_fuel : Q;
  with_margin : Q;
  breakdown : list BreakdownEntry;
  confidence : Q
}.

Record SafetyEvaluation : Type := mkSafetyEvaluation {
  status : string;
  fuel_margin : Q;
  abort_capable : bool;
  time_remaining : extended;
  fuel_sufficient : bool
}.

Record AlertPackage : Type := mkAlertPackage {
  warnings : list string;
  recommendations : list string;
  priority : string
}.

(** The dict returned by [monitor_cycle]; its keys are fixed, so it is a
    record with one field per key. *)
Record Snapshot : Type := mkSnapshot {
  snap_timestamp : string;
  snap_mission_phase : string;
  snap_status : string;
  snap_current_fuel : Q;
  snap_burn_rate : Q;
  snap_burn_rate_deviation : Q;
  snap_anomaly_detected : bool;
  snap_required_fuel : Q;
  snap_fuel_margin : Q;
  snap_fuel_at_touchdown : Q;
  snap_time_remaining : extended;
  snap_abort_capable : bool;
  snap_confidence : Q;
  snap_warnings : list string;
  snap_recommendations : list string;
  snap_altitude : Q;
  snap_velocity : Q
}.

(** ** Mission configuration *)

Definition PHASE_BURN_RATES : gmap string Q :=
  {[ "powered_descent" := 8.0;
     "constant_deceleration" := 6.0;
     "final_approach" := 4.0;
     "landing" := 12.0 ]}.

Definition REMAINING_MANEUVERS : gmap string (list MissionPhase) :=
  {[ "powered_descent" :=
       [ mkMissionPhase "constant_deceleration" 6.0 40 0.08;
         mkMissionPhase "final_approach" 4.0 20 0.05;
         mkMissionPhase "landing" 12.0 10 0.03 ];
     "constant_deceleration" :=
       [ mkMissionPhase "final_approach" 4.0 20 0.05;
         mkMissionPhase "landing" 12.0 10 0.03 ];
     "final_approach" :=
       [ mkMissionPhase "landing" 12.0 10 0.03 ];
     "landing" := [] ]}.

(** ** The object and its methods *)

Record MarsLandingFuelSystem : Type := mkSystem {
  previous_fuel_mass : Q;
  previous_timestamp : Q;
  mission_phase : string;
  alert_history : list string;
  current_fuel_mass : Q;
  altitude : Q;
  velocity : Q
}.

(** A method: it reads and writes [self] and returns a value or raises. *)
Definition method (A : Type) : Type :=
  MarsLandingFuelSystem -> result (A * MarsLandingFuelSystem).

Definition ret {A : Type} (a : A) : method A :=
  fun self => Ok (a, self).

Definition bind {A B : Type} (m : method A) (k : A -> method B) : method B :=
  fun self =>
    match m self with
    | Ok (a, self') => k a self'
    | Raise e => Raise e
    end.

Definition raise {A : Type} (e : exn) : method A :=
  fun _ => Raise e.

Definition get_self : method MarsLandingFuelSystem :=
  fun self => Ok (self, self).

Declare Scope method_scope.
Delimit Scope method_scope with method.
Bind Scope method_scope with method.

Notation "x <- c ;; k" := (bind c (fun x => k))
  (at level 100, c at next level, right associativity) : method_scope.
Notation "c ;; k" := (bind c (fun _ => k))
  (at level 100, right associativity) : method_scope.

(** Python's true division [x / y]. *)
Definition truediv (x y : Q) : method Q :=
  if Qeq_bool y 0 then raise ZeroDivisionError else ret (x / y).

(** Attribute assignments [self.attr = v]. *)
Definition set_previous_fuel_mass (v : Q) : method unit :=
  fun self =>
    Ok (tt, mkSystem v (previous_timestamp self) (mission_phase self)
              (alert_history self) (current_fuel_mass self) (altitude self)
              (velocity self)).

Definition set_previous_timestamp (v : Q) : method unit :=
  fun self =>
    Ok (tt, mkSystem (previous_fuel_mass self) v (mission_phase self)
              (alert_history self) (current_fuel_mass self) (altitude self)
              (velocity self)).

Definition set_mission_phase_attr (v : string) : method unit :=
  fun self =>
    Ok (tt, mkSystem (previous_fuel_mass self) (previous_timestamp self) v
              (alert_history self) (current_fuel_mass self) (altitude self)
              (velocity self)).

Definition set_current_fuel_mass (v : Q) : method unit :=
  fun self =>
    Ok (tt, mkSystem (previous_fuel_mass self) (previous_timestamp self)
              (mission_phase self) (alert_history self) v (altitude self)
              (velocity self)).

Definition set_altitude (v : Q) : method unit :=
  fun self =>
    Ok (tt, mkSystem (previous_fuel_mass self) (previous_timestamp self)
              (mission_phase self) (alert_history self)
              (current_fuel_mass self) v (velocity self)).

Definition set_velocity (v : Q) : method unit :=
  fun self =>
    Ok (tt, mkSystem (previous_fuel_mass self) (previous_timestamp self)
              (mission_phase self) (alert_history self)
              (current_fuel_mass self) (altitude self) v).

(** [__init__]; [now] is the reading of [time.time()]. *)
Definition init (initial_fuel : Q) (phase : string) (now : Q)
  : MarsLandingFuelSystem :=
  {| previous_fuel_mass := initial_fuel;
     previous_timestamp := now;
     mission_phase := phase;
     alert_history := [];
     current_fuel_mass := initial_fuel;
     altitude := 5000.0;
     velocity := 80.0 |}.

(** *** Stage 1: consumption rate *)

Definition calculate_burn_rate (current_fuel current_time : Q)
  : method ConsumptionData :=
  (self <- get_self ;;
   let time_delta := current_time - previous_timestamp self in
   let time_delta := if time_delta <=? 0 then 0.001 else time_delta in
   let fuel_consumed := previous_fuel_mass self - current_fuel in
   actual_burn_rate <- truediv fuel_consumed time_delta ;;
   let nominal_burn_rate := dict_get PHASE_BURN_RATES (mission_phase self) 6.0 in
   deviation <- (if 0 <? nominal_burn_rate
                 then truediv (actual_burn_rate - nominal_burn_rate) nominal_burn_rate
                 else ret 0.0) ;;
   let anomaly_detected := BURN_RATE_TOLERANCE <? Qabs deviation in
   set_previous_fuel_mass current_fuel ;;
   set_previous_timestamp current_time ;;
   ret {| actual_burn_rate := actual_burn_rate;
          deviation_percent := deviation * 100;
          anomaly_flag := anomaly_detected;
          current_fuel := current_fuel |})%method.

(** *** Stage 2: fuel requirement *)

(** The [for maneuver in remaining_maneuvers] loop, with its two accumulators
    [total_required_fuel] and [fuel_breakdown]. *)
Fixpoint for_each_maneuver (burn_rate : Q) (remaining_maneuvers : list MissionPhase)
    (total_required_fuel : Q) (fuel_breakdown : list BreakdownEntry)
  : method (Q * list BreakdownEntry) :=
  match remaining_maneuvers with
  | [] => ret (total_required_fuel, fuel_breakdown)
  | maneuver :: rest =>
      (burn_adjustment <- (if 0 <? nominal_burn_rate maneuver
                           then truediv burn_rate (nominal_burn_rate maneuver)
                           else ret 1.0) ;;
       let phase_fuel := duration maneuver * burn_rate * burn_adjustment in
       let adjusted_fuel := phase_fuel * (1 + gravity_loss_factor maneuver) in
       for_each_maneuver burn_rate rest
         (total_required_fuel + adjusted_fuel)
         (fuel_breakdown ++ [ {| bd_phase := name maneuver;
                                 bd_fuel_required := adjusted_fuel;
                                 bd_duration := duration maneuver |} ]))%method
  end.

Definition predict_fuel_requirements (burn_rate : Q) (anomaly_detected : bool)
  : method FuelPrediction :=
  (self <- get_self ;;
   let remaining_maneuvers := dict_get REMAINING_MANEUVERS (mission_phase self) [] in
   acc <- for_each_maneuver burn_rate remaining_maneuvers 0.0 [] ;;
   let total_required_fuel := fst acc in
   let fuel_breakdown := snd acc in
   let uncertainty_margin :=
     if anomaly_detected then total_required_fuel * 0.20
     else total_required_fuel * 0.05 in
   let total_with_margin := total_required_fuel + uncertainty_margin in
   confidence_level <- (if 0 <? total_required_fuel
                        then (ratio <- truediv uncertainty_margin total_required_fuel ;;
                              ret ((1 - ratio) * 100))
                        else ret 100.0) ;;
   ret {| required_fuel := total_required_fuel;
          with_margin := total_with_margin;
          breakdown := fuel_breakdown;
          confidence := confidence_level |})%method.

(** *** Stage 3: safety margins *)

Definition _calculate_abort_to_orbit_fuel : method Q :=
  (self <- get_self ;;
   ratio <- truediv (altitude self) 5000.0 ;;
   let altitude_factor := pymax 0 ratio in
   velocity_factor <- truediv (velocity self) 100.0 ;;
   let base_abort_fuel := 200 in
   let altitude_penalty := 50 * (1 - altitude_factor) in
   let velocity_penalty := 30 * velocity_factor in
   ret (base_abort_fuel + altitude_penalty + velocity_penalty))%method.

Definition evaluate_safety_margins (current_fuel required_fuel burn_rate : Q)
  : method SafetyEvaluation :=
  (let fuel_margin := current_fuel - required_fuel - SAFE_RESERVE in
   abort_maneuver_fuel <- _calculate_abort_to_orbit_fuel ;;
   let abort_capable := abort_maneuver_fuel + 50 <=? current_fuel in
   let status :=
     if (0 <=? fuel_margin) && abort_capable then "NOMINAL"
     else if (-50 <=? fuel_margin) || abort_capable then "CAUTION"
     else "CRITICAL" in
   time_to_depletion <- (if 0 <? burn_rate
                         then (t <- truediv current_fuel burn_rate ;; ret (Fin t))
                         else ret PosInf) ;;
   ret {| status := status;
          fuel_margin := fuel_margin;
          abort_capable := abort_capable;
          time_remaining := time_to_depletion;
          fuel_sufficient := (0 <=? fuel_margin) |})%method.

(** *** Stage 4: alerts *)

Definition generate_alerts (safety_eval : SafetyEvaluation)
    (consumption_data : ConsumptionData) (prediction : FuelPrediction)
  : method AlertPackage :=
  (let warnings : list string := [] in
   let recommendations : list string := [] in
   (* Critical fuel shortage *)
   let '(warnings, recommendations) :=
     if negb (fuel_sufficient safety_eval) then
       let warnings := warnings ++ ["CRITICAL: Insufficient fuel for nominal landing"] in
       let fuel_deficit := Qabs (fuel_margin safety_eval) in
       let warnings :=
         warnings ++ ["DEFICIT: " +:+ format_1f false fuel_deficit +:+ " kg shortfall"] in
       if abort_capable safety_eval then
         (warnings, recommendations ++ ["IMMEDIATE: Consider abort to orbit"])
       else
         (warnings, (recommendations ++ ["EMERGENCY: Optimize trajectory NOW"])
                      ++ ["Consider emergency landing procedures"])
     else (warnings, recommendations) in
   (* Abort capability lost *)
   let warnings :=
     if negb (abort_capable safety_eval)
        && negb (bool_decide (status safety_eval = "CRITICAL"))
     then warnings ++ ["WARNING: Abort-to-orbit window closing"]
     else warnings in
   (* Anomalous consumption *)
   let '(warnings, recommendations) :=
     if anomaly_flag consumption_data then
       let deviation := deviation_percent consumption_data in
       (warnings ++ ["ALERT: Burn rate " +:+ format_1f true deviation +:+ "% from nominal"],
        recommendations ++ ["Investigate thruster performance"])
     else (warnings, recommendations) in
   (* Time-critical alert *)
   let warnings :=
     if ext_lt_bool (time_remaining safety_eval) ALERT_THRESHOLD
     then warnings ++ ["TIME CRITICAL: "
                         +:+ format_1f_ext (time_remaining safety_eval)
                         +:+ "s to depletion"]
     else warnings in
   (* Positive status with margin *)
   let recommendations :=
     if bool_decide (status safety_eval = "NOMINAL") && (length warnings =? 0)%nat
     then recommendations ++ ["Continue nominal descent profile"]
     else recommendations in
   ret {| warnings := warnings;
          recommendations := recommendations;
          priority := status safety_eval |})%method.

(** *** The monitoring cycle

    [current_time] is the reading of [time.time()] and [stamp] the formatted
    [datetime.now()], both supplied by the environment. *)

Definition monitor_cycle (current_time : Q) (stamp : string) : method Snapshot :=
  (self <- get_self ;;
   consumption_data <- calculate_burn_rate (current_fuel_mass self) current_time ;;
   fuel_prediction <- predict_fuel_requirements
                        (actual_burn_rate consumption_data)
                        (anomaly_flag consumption_data) ;;
   safety_status <- evaluate_safety_margins
                      (current_fuel consumption_data)
                      (with_margin fuel_prediction)
                      (actual_burn_rate consumption_data) ;;
   alerts <- generate_alerts safety_status consumption_data fuel_prediction ;;
   let fuel_at_touchdown :=
     current_fuel consumption_data - required_fuel fuel_prediction in
   self <- get_self ;;
   ret {| snap_timestamp := stamp;
          snap_mission_phase := mission_phase self;
          snap_status := status safety_status;
          snap_current_fuel := current_fuel consumption_data;
          snap_burn_rate := actual_burn_rate consumption_data;
          snap_burn_rate_deviation := deviation_percent consumption_data;
          snap_anomaly_detected := anomaly_flag consumption_data;
          snap_required_fuel := required_fuel fuel_prediction;
          snap_fuel_margin := fuel_margin safety_status;
          snap_fuel_at_touchdown := fuel_at_touchdown;
          snap_time_remaining := time_remaining safety_status;
          snap_abort_capable := abort_capable safety_status;
          snap_confidence := confidence fuel_prediction;
          snap_warnings := warnings alerts;
          snap_recommendations := recommendations alerts;
          snap_altitude := altitude self;
          snap_velocity := velocity self |})%method.

(** *** Simulation methods *)

Definition update_sensors (fuel_delta altitude_delta velocity_delta : Q)
  : method unit :=
  (self <- get_self ;;
   set_current_fuel_mass (current_fuel_mass self + fuel_delta) ;;
   set_altitude (altitude self + altitude_delta) ;;
   set_velocity (velocity self + velocity_delta) ;;
   self <- get_self ;;
   set_current_fuel_mass (pymax 0 (current_fuel_mass self)) ;;
   set_altitude (pymax 0 (altitude self)) ;;
   set_velocity (pymax 0 (velocity self)))%method.

Definition set_mission_phase (phase : string) : method unit :=
  match PHASE_BURN_RATES !! phase with
  | Some _ => set_mission_phase_attr phase
  | None => ret tt
  end.

(** ** The demonstration scenarios of the module, run on the model *)

Definition example_system (initial_fuel : Q) (phase : string) (alt vel : Q)
  : MarsLandingFuelSystem :=
  {| previous_fuel_mass := initial_fuel;
     previous_timestamp := 0;
     mission_phase := phase;
     alert_history := [];
     current_fuel_mass := initial_fuel;
     altitude := alt;
     velocity := vel |}.

Definition run_example (initial_fuel : Q) (phase : string) (alt vel fuel_delta : Q)
  : result (Snapshot * MarsLandingFuelSystem) :=
  (update_sensors fuel_delta 0 0 ;; monitor_cycle 0.5 "t")%method
    (example_system initial_fuel phase alt vel).

(** ** Vocabulary of the statements *)

(** The time delta the estimator divides by. *)
Definition effective_time_delta (current_time : Q) (self : MarsLandingFuelSystem) : Q :=
  if current_time - previous_timestamp self <=? 0 then 0.001
  else current_time - previous_timestamp self.

(** A state whose previous sample is 853 kg at time 0. *)
Definition small_delta_state : MarsLandingFuelSystem :=
  example_system 853 "constant_deceleration" 2000 45.

(** An assessment under CAUTION, 10 kg short and past the abort window, with
    the sample and the prediction of the landing phase it comes from. *)
Definition caution_assessment : SafetyEvaluation :=
  {| status := "CAUTION";
     fuel_margin := -10;
     abort_capable := false;
     time_remaining := Fin 7.5;
     fuel_sufficient := false |}.

Definition nominal_sample : ConsumptionData :=
  {| actual_burn_rate := 12;
     deviation_percent := 0;
     anomaly_flag := false;
     current_fuel := 90 |}.

Definition empty_prediction : FuelPrediction :=
  {| required_fuel := 0;
     with_margin := 0;
     breakdown := [];
     confidence := 100 |}.

(** What the table promises of a maneuver: a positive nominal rate, and a
    duration and a gravity-loss factor that are not negative. *)
Definition well_formed (m : MissionPhase) : Prop :=
  0 < nominal_burn_rate m /\ 0 <= duration m /\ 0 <= gravity_loss_factor m.

(** The warning of the abort-window rule. *)
Definition ABORT_WINDOW_WARNING : string :=
  "WARNING: Abort-to-orbit window closing".

(** The warnings of [generate_alerts], rule by rule. *)
Definition shortage_warnings (safety_eval : SafetyEvaluation) : list string :=
  if fuel_sufficient safety_eval then []
  else [ "CRITICAL: Insufficient fuel for nominal landing";
         "DEFICIT: " +:+ format_1f false (Qabs (fuel_margin safety_eval))
           +:+ " kg shortfall" ].

Definition abort_window_warnings (safety_eval : SafetyEvaluation) : list string :=
  if negb (abort_capable safety_eval)
     && negb (bool_decide (status safety_eval = "CRITICAL"))
  then [ABORT_WINDOW_WARNING] else [].

Definition deviation_warnings (consumption_data : ConsumptionData) : list string :=
  if anomaly_flag consumption_data
  then [ "ALERT: Burn rate " +:+ format_1f true (deviation_percent consumption_data)
           +:+ "% from nominal" ]
  else [].

Definition time_warnings (safety_eval : SafetyEvaluation) : list string :=
  if ext_lt_bool (time_remaining safety_eval) ALERT_THRESHOLD
  then [ "TIME CRITICAL: " +:+ format_1f_ext (time_remaining safety_eval)
           +:+ "s to depletion" ]
  else [].

(** The three labels by severity: the higher, the better. *)
Definition status_rank (label : string) : nat :=
  if bool_decide (label = "NOMINAL") then 2
  else if bool_decide (label = "CAUTION") then 1
  else 0.

(** The fuel a list of maneuvers costs per squared kg/s of burn rate. *)
Definition cost_coefficient (maneuvers : list MissionPhase) : Q :=
  fold_right
    (fun m acc => duration m * (1 + gravity_loss_factor m) / nominal_burn_rate m + acc)
    0 maneuvers.

(** The sum of the ["fuel_required"] entries of a breakdown. *)
Definition breakdown_total (bd : list BreakdownEntry) : Q :=
  fold_right (fun entry acc => bd_fuel_required entry + acc) 0 bd.

(** The mission phase of the object is one the burn-rate table lists. *)
Definition known_phase (self : MarsLandingFuelSystem) : Prop :=
  is_Some (PHASE_BURN_RATES !! mission_phase self).

(** The recommendations of [generate_alerts], rule by rule. *)
Definition shortage_recommendations (safety_eval : SafetyEvaluation) : list string :=
  if fuel_sufficient safety_eval then []
  else if abort_capable safety_eval then ["IMMEDIATE: Consider abort to orbit"]
  else [ "EMERGENCY: Optimize trajectory NOW";
         "Consider emergency landing procedures" ].

Definition deviation_recommendations (consumption_data : ConsumptionData)
  : list string :=
  if anomaly_flag consumption_data then ["Investigate thruster performance"] else [].

(** ** The driver of [app.py]

    The Flask routes that drive the object.  A route reads and writes the
    module-level dict [state]; its clock readings, the formatted date and the
    parsed request body are parameters, and the [jsonify] response is the
    value it returns.  An exception leaves [state] as it stood when it was
    raised. *)

Module App.

(** One entry of [SCENARIOS]: the dict with the keys ["name"],
    ["initialFuel"], ["phase"], ["altitude"], ["velocity"], ["fuelDelta"]. *)
Record Scenario : Type := mkScenario {
  sc_name : string;
  sc_initialFuel : Q;
  sc_phase : string;
  sc_altitude : Q;
  sc_velocity : Q;
  sc_fuelDelta : Q
}.

Definition SCENARIOS : gmap string Scenario :=
  {[ "nominal" :=
       mkScenario "Nominal Operations" 853 "constant_deceleration" 2000 45 (-3.0);
     "anomalous" :=
       mkScenario "Thruster Leak" 627 "constant_deceleration" 1200 38 (-7.0);
     "critical" :=
       mkScenario "Critical Shortage" 178 "final_approach" 450 12 (-3.0);
     "emergency" :=
       mkScenario "Depletion Imminent" 118 "landing" 95 3 (-6.0) ]}.

(** The dict [state], one field per key. *)
Record State : Type := mkState {
  st_system : option MarsLandingFuelSystem;
  st_scenario : string;
  st_is_running : bool;
  st_tick : Z
}.

(** Its value when the module is loaded. *)
Definition state : State :=
  {| st_system := None;
     st_scenario := "nominal";
     st_is_running := false;
     st_tick := 0 |}.

Inductive error : Type :=
| KeyError (key : string)
| TypeError
| AttributeError
| MethodError (e : exn).

Inductive outcome (A : Type) : Type :=
| Return (a : A)
| Throw (e : error).

Arguments Return {A} a.
Arguments Throw {A} e.

(** A route or helper: it returns or raises, and leaves a [state]. *)
Definition handler (A : Type) : Type := State -> outcome A * State.

Definition hret {A : Type} (a : A) : handler A :=
  fun st => (Return a, st).

Definition hbind {A B : Type} (h : handler A) (k : A -> handler B) : handler B :=
  fun st =>
    match h st with
    | (Return a, st') => k a st'
    | (Throw e, st') => (Throw e, st')
    end.

Definition throw {A : Type} (e : error) : handler A :=
  fun st => (Throw e, st).

Definition get_state : handler State :=
  fun st => (Return st, st).

Declare Scope handler_scope.
Delimit Scope handler_scope with handler.
Bind Scope handler_scope with handler.

Notation "x <- c ;; k" := (hbind c (fun x => k))
  (at level 100, c at next level, right associativity) : handler_scope.
Notation "c ;; k" := (hbind c (fun _ => k))
  (at level 100, right associativity) : handler_scope.

(** Item assignments [state[key] = v]. *)
Definition set_system (v : option MarsLandingFuelSystem) : handler unit :=
  fun st => (Return tt, mkState v (st_scenario st) (st_is_running st) (st_tick st)).

Definition set_scenario (v : string) : handler unit :=
  fun st => (Return tt, mkState (st_system st) v (st_is_running st) (st_tick st)).

Definition set_is_running (v : bool) : handler unit :=
  fun st => (Return tt, mkState (st_system st) (st_scenario st) v (st_tick st)).

Definition set_tick (v : Z) : handler unit :=
  fun st => (Return tt, mkState (st_system st) (st_scenario st) (st_is_running st) v).

(** [SCENARIOS[key]]. *)
Definition scenarios_item (key : string) : handler Scenario :=
  match SCENARIOS !! key with
  | Some s => hret s
  | None => throw (KeyError key)
  end.

(** A method call on the object that [state["system"]] refers to; the object
    is mutated in place. *)
Definition on_system {A : Type} (m : method A) : handler A :=
  fun st =>
    match st_system st with
    | None => (Throw AttributeError, st)
    | Some sys =>
        match m sys with
        | Ok (a, sys') =>
            (Return a, mkState (Some sys') (st_scenario st) (st_is_running st) (st_tick st))
        | Raise e => (Throw (MethodError e), st)
        end
    end.

(** An attribute assignment on a local object [sys]; the object it leaves
    is returned. *)
Definition on_object (m : method unit) (sys : MarsLandingFuelSystem)
  : handler MarsLandingFuelSystem :=
  fun st =>
    match m sys with
    | Ok (_, sys') => (Return sys', st)
    | Raise e => (Throw (MethodError e), st)
    end.

(** What [jsonify] is given. *)
Inductive response : Type :=
| OkTrue
| StatusResponse (is_running : bool) (selectedScenario : string) (status : Snapshot).

(** A parsed JSON document. *)
#[local] Unset Elimination Schemes.
Inductive json : Type :=
| JNull
| JBool (b : bool)
| JNumber (q : Q)
| JString (s : string)
| JArray (items : list json)
| JObject (members : list (string * json)).
#[local] Set Elimination Schemes.

(** Python's truth value of a parsed document. *)
Definition truthy (j : json) : bool :=
  match j with
  | JNull => false
  | JBool b => b
  | JNumber q => negb (Qeq_bool q 0)
  | JString s => negb (bool_decide (s = ""))
  | JArray items => negb (bool_decide (items = []))
  | JObject members => negb (bool_decide (members = []))
  end.

(** [d.get(key, dflt)] on the dict of a JSON object; of two members with the
    same name the later one counts. *)
Definition members_get (members : list (string * json)) (key : string) (dflt : json)
  : json :=
  match find (fun member => bool_decide (fst member = key)) (rev members) with
  | Some member => snd member
  | None => dflt
  end.

(** [data.get(key, dflt)]: only a dict has the method. *)
Definition json_get (data : json) (key : string) (dflt : json) : handler json :=
  match data with
  | JObject members => hret (members_get members key dflt)
  | _ => throw AttributeError
  end.

(** [key not in SCENARIOS]: a list or a dict cannot be hashed. *)
Definition not_in_scenarios (key : json) : handler bool :=
  match key with
  | JString s =>
      hret (match SCENARIOS !! s with Some _ => false | None => true end)
  | JArray _ | JObject _ => throw TypeError
  | JNull | JBool _ | JNumber _ => hret true
  end.

(** [init_system]; [now] is the reading of [time.time()] in [__init__]. *)
Definition init_system (key : string) (now : Q) : handler unit :=
  (s <- scenarios_item key ;;
   let sys := init (sc_initialFuel s) (sc_phase s) now in
   sys <- on_object (set_altitude (sc_altitude s)) sys ;;
   sys <- on_object (set_velocity (sc_velocity s)) sys ;;
   set_system (Some sys) ;;
   set_tick 0)%handler.

Definition start : handler response :=
  (set_is_running true ;; hret OkTrue)%handler.

Definition pause : handler response :=
  (set_is_running false ;; hret OkTrue)%handler.

Definition reset (now : Q) : handler response :=
  (st <- get_state ;;
   init_system (st_scenario st) now ;;
   set_is_running false ;;
   hret OkTrue)%handler.

(** [body] is what [request.get_json(silent=True)] returns. *)
Definition scenario (body : option json) (now : Q) : handler response :=
  (let data :=
     match body with
     | Some j => if truthy j then j else JObject []
     | None => JObject []
     end in
   key <- json_get data "key" (JString "nominal") ;;
   unlisted <- not_in_scenarios key ;;
   let key :=
     match key with
     | JString s => if unlisted then "nominal" else s
     | _ => "nominal"
     end in
   st <- get_state ;;
   let prev_running := st_is_running st in
   set_scenario key ;;
   init_system key now ;;
   set_is_running prev_running ;;
   hret OkTrue)%handler.

(** [init_time] is the clock reading of a first initialisation,
    [current_time] and [stamp] those of the monitoring cycle. *)
Definition status (init_time current_time : Q) (stamp : string) : handler response :=
  (st <- get_state ;;
   match st_system st with
   | None => init_system (st_scenario st) init_time
   | Some _ => hret tt
   end ;;
   st <- get_state ;;
   s <- scenarios_item (st_scenario st) ;;
   (if st_is_running st
    then on_system (update_sensors (sc_fuelDelta s) (-50) (-2))
    else hret tt) ;;
   snap <- on_system (monitor_cycle current_time stamp) ;;
   st <- get_state ;;
   set_tick (st_tick st + 1) ;;
   st <- get_state ;;
   hret (StatusResponse (st_is_running st) (st_scenario st) snap))%handler.

(** The selected scenario is one of the table. *)
Definition valid (st : State) : Prop :=
  is_Some (SCENARIOS !! st_scenario st).

(** The object a scenario starts from. *)
Definition fresh_system (s : Scenario) (now : Q) : MarsLandingFuelSystem :=
  {| previous_fuel_mass := sc_initialFuel s;
     previous_timestamp := now;
     mission_phase := sc_phase s;
     alert_history := [];
     current_fuel_mass := sc_initialFuel s;
     altitude := sc_altitude s;
     velocity := sc_velocity s |}.

End App.

(** ** The consumption estimator in binary64

    Whether a burn rate is flagged depends on how the two quotients of
    [calculate_burn_rate] round, so the method is embedded a second time with
    its numbers as the IEEE-754 binary64 floats that Python computes on: the
    same statements, the arithmetic and the comparisons of the machine. *)

Module Binary64.

Import Floats.
#[local] Open Scope float_scope.
#[local] Set Warnings "-inexact-float".

Definition BURN_RATE_TOLERANCE : float := 0.15.

Record ConsumptionData : Type := mkConsumptionData {
  actual_burn_rate : float;
  deviation_percent : float;
  anomaly_flag : bool;
  current_fuel : float
}.

Definition PHASE_BURN_RATES : gmap string float :=
  {[ "powered_descent" := 8.0;
     "constant_deceleration" := 6.0;
     "final_approach" := 4.0;
     "landing" := 12.0 ]}.

Record MarsLandingFuelSystem : Type := mkSystem {
  previous_fuel_mass : float;
  previous_timestamp : float;
  mission_phase : string;
  alert_history : list string;
  current_fuel_mass : float;
  altitude : float;
  velocity : float
}.

Definition method (A : Type) : Type :=
  MarsLandingFuelSystem -> result (A * MarsLandingFuelSystem).

Definition ret {A : Type} (a : A) : method A :=
  fun self => Ok (a, self).

Definition bind {A B : Type} (m : method A) (k : A -> method B) : method B :=
  fun self =>
    match m self with
    | Ok (a, self') => k a self'
    | Raise e => Raise e
    end.

Definition raise {A : Type} (e : exn) : method A :=
  fun _ => Raise e.

Definition get_self : method MarsLandingFuelSystem :=
  fun self => Ok (self, self).

Declare Scope binary64_method_scope.
Delimit Scope binary64_method_scope with binary64_method.
Bind Scope binary64_method_scope with method.

Notation "x <- c ;; k" := (bind c (fun x => k))
  (at level 100, c at next level, right associativity) : binary64_method_scope.
Notation "c ;; k" := (bind c (fun _ => k))
  (at level 100, right associativity) : binary64_method_scope.

(** Python's true division [x / y] of floats: a zero divisor, of either
    sign, raises. *)
Definition truediv (x y : float) : method float :=
  if y =? 0 then raise ZeroDivisionError else ret (x / y).

Definition set_previous_fuel_mass (v : float) : method unit :=
  fun self =>
    Ok (tt, mkSystem v (previous_timestamp self) (mission_phase self)
              (alert_history self) (current_fuel_mass self) (altitude self)
              (velocity self)).

Definition set_previous_timestamp (v : float) : method unit :=
  fun self =>
    Ok (tt, mkSystem (previous_fuel_mass self) v (mission_phase self)
              (alert_history self) (current_fuel_mass self) (altitude self)
              (velocity self)).

Definition calculate_burn_rate (current_fuel current_time : float)
  : method ConsumptionData :=
  (self <- get_self ;;
   let time_delta := current_time - previous_timestamp self in
   let time_delta := if time_delta <=? 0 then 0.001 else time_delta in
   let fuel_consumed := previous_fuel_mass self - current_fuel in
   actual_burn_rate <- truediv fuel_consumed time_delta ;;
   let nominal_burn_rate := dict_get PHASE_BURN_RATES (mission_phase self) 6.0 in
   deviation <- (if 0 <? nominal_burn_rate
                 then truediv (actual_burn_rate - nominal_burn_rate) nominal_burn_rate
                 else ret 0.0) ;;
   let anomaly_detected := BURN_RATE_TOLERANCE <? abs deviation in
   set_previous_fuel_mass current_fuel ;;
   set_previous_timestamp current_time ;;
   ret {| actual_burn_rate := actual_burn_rate;
          deviation_percent := deviation * 100;
          anomaly_flag := anomaly_detected;
          current_fuel := current_fuel |})%binary64_method.

(** The time delta the estimator divides by. *)
Definition effective_time_delta (current_time : float) (self : MarsLandingFuelSystem)
  : float :=
  if current_time - previous_timestamp self <=? 0 then 0.001
  else current_time - previous_timestamp self.

(** An object whose previous sample is [fuel] kg at time 0. *)
Definition example_system (fuel : float) (phase : string) : MarsLandingFuelSystem :=
  {| previous_fuel_mass := fuel;
     previous_timestamp := 0;
     mission_phase := phase;
     alert_history := [];
     current_fuel_mass := fuel;
     altitude := 2000;
     velocity := 45 |}.

End Binary64.

(** ** Facts about the primitives *)

Lemma Qlt_bool_iff (x y : Q) : (x <? y) = true <-> x < y.
Proof.
  unfold Qlt_bool. rewrite negb_true_iff.
  split; intros H.
  - apply Qnot_le_lt. intros Hle. apply Qle_bool_iff in Hle. congruence.
  - destruct (y <=? x) eqn:E; [|reflexivity].
    apply Qle_bool_iff in E. exfalso. apply (Qlt_not_le _ _ H E).
Qed.

Lemma Qlt_bool_false_iff (x y : Q) : (x <? y) = false <-> y <= x.
Proof.
  unfold Qlt_bool. rewrite negb_false_iff. apply Qle_bool_iff.
Qed.

Lemma Qle_bool_false_iff (x y : Q) : (x <=? y) = false <-> y < x.
Proof.
  rewrite <- Qlt_bool_iff. unfold Qlt_bool.
  destruct (x <=? y); simpl; split; congruence.
Qed.

Lemma Qeq_bool_false_iff (x y : Q) : Qeq_bool x y = false <-> ~ x == y.
Proof.
  split.
  - apply Qeq_bool_neq.
  - intros H. destruct (Qeq_bool x y) eqn:E; [|reflexivity].
    apply Qeq_bool_iff in E. contradiction.
Qed.

Lemma truediv_ok (x y : Q) (self : MarsLandingFuelSystem) :
  Qeq_bool y 0 = false -> truediv x y self = Ok (x / y, self).
Proof. intros H. unfold truediv. rewrite H. reflexivity. Qed.

Lemma truediv_pos (x y : Q) (self : MarsLandingFuelSystem) :
  0 < y -> truediv x y self = Ok (x / y, self).
Proof.
  intros H. apply truediv_ok. apply Qeq_bool_false_iff. lra.
Qed.

Lemma truediv_zero (x y : Q) (self : MarsLandingFuelSystem) :
  y == 0 -> truediv x y self = Raise ZeroDivisionError.
Proof.
  intros H. unfold truediv. apply Qeq_bool_iff in H. rewrite H. reflexivity.
Qed.

Lemma pymax_spec (a b : Q) : pymax a b == Qmax a b.
Proof.
  unfold pymax. destruct (a <? b) eqn:E.
  - apply Qlt_bool_iff in E. symmetry. apply Q.max_r. lra.
  - apply Qlt_bool_false_iff in E. symmetry. apply Q.max_l. lra.
Qed.

(** ** Stage 3: the safety evaluator *)

Lemma abort_to_orbit_fuel_total (self : MarsLandingFuelSystem) :
  _calculate_abort_to_orbit_fuel self =
    Ok (200 + 50 * (1 - pymax 0 (altitude self / 5000.0))
          + 30 * (velocity self / 100.0), self).
Proof.
  unfold _calculate_abort_to_orbit_fuel, bind, get_self.
  rewrite !truediv_ok by reflexivity. reflexivity.
Qed.

(** The time-to-depletion branch never divides by zero: the evaluator
    returns for every input, leaving [self] as it was. *)
Lemma evaluate_safety_margins_total
    (current_fuel required_fuel burn_rate : Q) (self : MarsLandingFuelSystem) :
  exists abort_fuel,
    _calculate_abort_to_orbit_fuel self = Ok (abort_fuel, self) /\
    evaluate_safety_margins current_fuel required_fuel burn_rate self =
      Ok ({| status :=
               if (0 <=? current_fuel - required_fuel - SAFE_RESERVE)
                  && (abort_fuel + 50 <=? current_fuel) then "NOMINAL"
               else if (-50 <=? current_fuel - required_fuel - SAFE_RESERVE)
                       || (abort_fuel + 50 <=? current_fuel) then "CAUTION"
               else "CRITICAL";
             fuel_margin := current_fuel - required_fuel - SAFE_RESERVE;
             abort_capable := abort_fuel + 50 <=? current_fuel;
             time_remaining :=
               if 0 <? burn_rate then Fin (current_fuel / burn_rate) else PosInf;
             fuel_sufficient := 0 <=? current_fuel - required_fuel - SAFE_RESERVE |},
          self).
Proof.
  eexists. split; [apply abort_to_orbit_fuel_total|].
  unfold evaluate_safety_margins, bind.
  rewrite abort_to_orbit_fuel_total.
  destruct (0 <? burn_rate) eqn:Hrate.
  - apply Qlt_bool_iff in Hrate. rewrite truediv_pos by exact Hrate. reflexivity.
  - reflexivity.
Qed.

(** C1.  [evaluate_safety_margins] returns for every current fuel, margined
    requirement, burn rate and state; its status is one of the three labels,
    NOMINAL exactly when the margin is non-negative and the abort is
    possible, CAUTION exactly when that fails but the margin is at least -50
    or the abort is possible, CRITICAL exactly when both fail; and
    [fuel_sufficient] is the test [fuel_margin >= 0] whatever the abort
    capability. *)
Theorem evaluate_safety_margins_status
    (current_fuel required_fuel burn_rate : Q) (self : MarsLandingFuelSystem) :
  exists (e : SafetyEvaluation) (abort_fuel : Q),
    evaluate_safety_margins current_fuel required_fuel burn_rate self = Ok (e, self) /\
    _calculate_abort_to_orbit_fuel self = Ok (abort_fuel, self) /\
    fuel_margin e = current_fuel - required_fuel - 100 /\
    (abort_capable e = true <-> abort_fuel + 50 <= current_fuel) /\
    (status e = "NOMINAL" \/ status e = "CAUTION" \/ status e = "CRITICAL") /\
    (status e = "NOMINAL" <->
       0 <= fuel_margin e /\ abort_capable e = true) /\
    (status e = "CAUTION" <->
       ~ (0 <= fuel_margin e /\ abort_capable e = true) /\
       (-50 <= fuel_margin e \/ abort_capable e = true)) /\
    (status e = "CRITICAL" <->
       ~ (0 <= fuel_margin e /\ abort_capable e = true) /\
       ~ (-50 <= fuel_margin e \/ abort_capable e = true)) /\
    (fuel_sufficient e = true <-> 0 <= fuel_margin e).
Proof.
  destruct (evaluate_safety_margins_total current_fuel required_fuel burn_rate self)
    as (abort_fuel & Habort & Heval).
  eexists. exists abort_fuel.
  split; [exact Heval|]. split; [exact Habort|].
  cbn [status fuel_margin abort_capable fuel_sufficient].
  unfold SAFE_RESERVE.
  set (margin := current_fuel - required_fuel - 100).
  split; [reflexivity|].
  assert (Hmono : (0 <=? margin) = true -> (-50 <=? margin) = true).
  { rewrite !Qle_bool_iff. lra. }
  rewrite <- !Qle_bool_iff.
  destruct (0 <=? margin), (-50 <=? margin), (abort_fuel + 50 <=? current_fuel);
    try (specialize (Hmono eq_refl); discriminate Hmono);
    cbn [andb orb]; intuition (discriminate || congruence).
Qed.

(** C5.  The time to depletion is [current_fuel / burn_rate] for a positive
    burn rate and the sentinel [inf], which no finite value equals, for a
    burn rate that is zero or negative; the evaluator returns in both cases,
    so the quotient is never taken with a divisor that is not positive (a
    zero divisor would raise), and its result does not depend on which
    non-positive rate it was given. *)
Theorem evaluate_safety_margins_time_remaining
    (current_fuel required_fuel burn_rate : Q) (self : MarsLandingFuelSystem) :
  exists e : SafetyEvaluation,
    evaluate_safety_margins current_fuel required_fuel burn_rate self = Ok (e, self) /\
    (0 < burn_rate -> time_remaining e = Fin (current_fuel / burn_rate)) /\
    (burn_rate <= 0 -> time_remaining e = PosInf) /\
    (forall q : Q, PosInf <> Fin q) /\
    (burn_rate <= 0 ->
       truediv current_fuel 0 self = Raise ZeroDivisionError /\
       evaluate_safety_margins current_fuel required_fuel 0 self = Ok (e, self)).
Proof.
  destruct (evaluate_safety_margins_total current_fuel required_fuel burn_rate self)
    as (abort_fuel & Habort & Heval).
  eexists. split; [exact Heval|].
  cbn [time_remaining].
  split; [|split; [|split]].
  - intros Hpos. apply Qlt_bool_iff in Hpos. rewrite Hpos. reflexivity.
  - intros Hnpos. apply Qlt_bool_false_iff in Hnpos. rewrite Hnpos. reflexivity.
  - intros q. discriminate.
  - intros Hnpos. split; [apply truediv_zero; reflexivity|].
    destruct (evaluate_safety_margins_total current_fuel required_fuel 0 self)
      as (abort_fuel' & Habort' & Heval').
    rewrite Habort in Habort'. injection Habort' as <-.
    rewrite Heval'. apply Qlt_bool_false_iff in Hnpos. rewrite Hnpos. reflexivity.
Qed.

(** With the engine off the time to depletion is the sentinel. *)
Lemma evaluate_safety_margins_time_remaining_engine_off :
  exists e : SafetyEvaluation,
    evaluate_safety_margins 850 700 0 small_delta_state = Ok (e, small_delta_state) /\
    time_remaining e = PosInf.
Proof.
  destruct (evaluate_safety_margins_time_remaining 850 700 0 small_delta_state)
    as (e & Hrun & _ & Hinf & _).
  exists e. split; [exact Hrun|].
  apply Hinf. apply Qle_bool_iff. reflexivity.
Defined.

(** ** The profile tables *)

Lemma phase_burn_rates_positive :
  map_Forall (fun _ rate => 0 < rate) PHASE_BURN_RATES.
Proof.
  unfold PHASE_BURN_RATES.
  repeat (apply map_Forall_insert_2; [reflexivity|]).
  apply map_Forall_empty.
Qed.

Lemma nominal_rate_positive (phase : string) :
  0 < dict_get PHASE_BURN_RATES phase 6.0.
Proof.
  unfold dict_get. destruct (PHASE_BURN_RATES !! phase) as [rate|] eqn:Hlook.
  - exact (phase_burn_rates_positive phase rate Hlook).
  - reflexivity.
Qed.

Lemma tables_same_keys : dom PHASE_BURN_RATES = dom REMAINING_MANEUVERS.
Proof.
  unfold PHASE_BURN_RATES, REMAINING_MANEUVERS.
  rewrite !dom_insert_L, !dom_singleton_L. reflexivity.
Qed.

Lemma unknown_phase_both_tables (phase : string) :
  PHASE_BURN_RATES !! phase = None <-> REMAINING_MANEUVERS !! phase = None.
Proof.
  rewrite <- !not_elem_of_dom, tables_same_keys. reflexivity.
Qed.

(** ** Stage 1: the consumption estimator *)

Lemma effective_time_delta_pos (current_time : Q) (self : MarsLandingFuelSystem) :
  0 < effective_time_delta current_time self.
Proof.
  unfold effective_time_delta.
  destruct (current_time - previous_timestamp self <=? 0) eqn:E.
  - reflexivity.
  - apply Qle_bool_false_iff in E. exact E.
Qed.

(** The estimator returns for every reading: both of its divisors are
    positive.  Its result and the state it leaves are these. *)
Lemma calculate_burn_rate_total (fuel current_time : Q) (self : MarsLandingFuelSystem) :
  let rate := (previous_fuel_mass self - fuel) / effective_time_delta current_time self in
  let nominal := dict_get PHASE_BURN_RATES (mission_phase self) 6.0 in
  let deviation := (rate - nominal) / nominal in
  calculate_burn_rate fuel current_time self =
    Ok ({| actual_burn_rate := rate;
           deviation_percent := deviation * 100;
           anomaly_flag := BURN_RATE_TOLERANCE <? Qabs deviation;
           current_fuel := fuel |},
        {| previous_fuel_mass := fuel;
           previous_timestamp := current_time;
           mission_phase := mission_phase self;
           alert_history := alert_history self;
           current_fuel_mass := current_fuel_mass self;
           altitude := altitude self;
           velocity := velocity self |}).
Proof.
  intros rate nominal deviation.
  unfold calculate_burn_rate, bind, get_self.
  fold (effective_time_delta current_time self).
  rewrite (truediv_pos _ _ _ (effective_time_delta_pos current_time self)).
  fold rate. fold nominal.
  pose proof (nominal_rate_positive (mission_phase self)) as Hnom.
  fold nominal in Hnom.
  rewrite (proj2 (Qlt_bool_iff 0 nominal) Hnom).
  rewrite (truediv_pos _ _ _ Hnom).
  reflexivity.
Qed.

(** C2, as stated, fails: half a millisecond after the previous sample the
    estimator divides the 0.003 kg consumed by 0.0005 s and reports 6 kg/s,
    where [max(0.0005, 0.001)] would give 3 kg/s. *)
Lemma calculate_burn_rate_not_max_floor :
  exists (c : ConsumptionData) (self' : MarsLandingFuelSystem),
    calculate_burn_rate 852.997 0.0005 small_delta_state = Ok (c, self') /\
    actual_burn_rate c == 6 /\
    (previous_fuel_mass small_delta_state - 852.997)
      / Qmax (0.0005 - previous_timestamp small_delta_state) 0.001 == 3 /\
    ~ actual_burn_rate c ==
        (previous_fuel_mass small_delta_state - 852.997)
          / Qmax (0.0005 - previous_timestamp small_delta_state) 0.001.
Proof.
  eexists. eexists. split; [apply calculate_burn_rate_total|].
  cbn [actual_burn_rate].
  split; [reflexivity|]. split; [reflexivity|].
  intros H. discriminate H.
Qed.

(** C2, amended.  For every fuel reading and timestamp the estimator returns
    (it never raises); the burn rate is the fuel consumed since the previous
    sample divided by the elapsed time when that time is positive, and
    divided by 0.001 when it is zero or negative. *)
Theorem calculate_burn_rate_rate (fuel current_time : Q) (self : MarsLandingFuelSystem) :
  exists (c : ConsumptionData) (self' : MarsLandingFuelSystem),
    calculate_burn_rate fuel current_time self = Ok (c, self') /\
    (current_time - previous_timestamp self <= 0 ->
       actual_burn_rate c = (previous_fuel_mass self - fuel) / 0.001) /\
    (0 < current_time - previous_timestamp self ->
       actual_burn_rate c =
         (previous_fuel_mass self - fuel) / (current_time - previous_timestamp self)).
Proof.
  eexists. eexists. split; [apply calculate_burn_rate_total|].
  cbn [actual_burn_rate]. unfold effective_time_delta.
  split; intros Hdt.
  - apply Qle_bool_iff in Hdt. rewrite Hdt. reflexivity.
  - apply Qle_bool_false_iff in Hdt. rewrite Hdt. reflexivity.
Qed.

(** Two cycles at the same instant: the 3 kg consumed are divided by 0.001. *)
Lemma calculate_burn_rate_rate_same_instant :
  exists (c : ConsumptionData) (self' : MarsLandingFuelSystem),
    calculate_burn_rate 850 0 small_delta_state = Ok (c, self') /\
    actual_burn_rate c = (previous_fuel_mass small_delta_state - 850) / 0.001.
Proof.
  destruct (calculate_burn_rate_rate 850 0 small_delta_state)
    as (c & self' & Hrun & Hfloor & _).
  exists c, self'. split; [exact Hrun|].
  apply Hfloor. apply Qle_bool_iff. reflexivity.
Defined.

(** ** Stage 2: the requirement predictor *)

Lemma remaining_maneuvers_well_formed :
  map_Forall (fun _ maneuvers => Forall well_formed maneuvers) REMAINING_MANEUVERS.
Proof.
  unfold REMAINING_MANEUVERS.
  repeat (apply map_Forall_insert_2;
          [repeat constructor; cbn; discriminate|]).
  apply map_Forall_empty.
Qed.

Lemma remaining_maneuvers_get_well_formed (phase : string) :
  Forall well_formed (dict_get REMAINING_MANEUVERS phase []).
Proof.
  unfold dict_get. destruct (REMAINING_MANEUVERS !! phase) as [l|] eqn:Hlook.
  - exact (remaining_maneuvers_well_formed phase l Hlook).
  - constructor.
Qed.

(** Off-nominal consumption enters a phase's cost squared, so the cost is not
    negative even for a negative burn rate. *)
Lemma adjusted_fuel_nonneg (burn_rate : Q) (m : MissionPhase) :
  well_formed m ->
  0 <= duration m * burn_rate * (burn_rate / nominal_burn_rate m)
         * (1 + gravity_loss_factor m).
Proof.
  intros (Hnom & Hdur & Hgrav).
  assert (Hinv : 0 < / nominal_burn_rate m) by (apply Qinv_lt_0_compat; exact Hnom).
  assert (Hsq : 0 <= burn_rate * burn_rate).
  { destruct (Qlt_le_dec burn_rate 0) as [Hneg|Hpos].
    - assert (E : burn_rate * burn_rate == (- burn_rate) * (- burn_rate)) by ring.
      rewrite E. apply Qmult_le_0_compat; lra.
    - apply Qmult_le_0_compat; exact Hpos. }
  unfold Qdiv.
  assert (E : duration m * burn_rate * (burn_rate * / nominal_burn_rate m)
                 * (1 + gravity_loss_factor m)
               == duration m * ((burn_rate * burn_rate) * / nominal_burn_rate m)
                    * (1 + gravity_loss_factor m)) by ring.
  rewrite E.
  apply Qmult_le_0_compat; [|lra].
  apply Qmult_le_0_compat; [exact Hdur|].
  apply Qmult_le_0_compat; [exact Hsq|lra].
Qed.

(** The loop returns for every list of maneuvers and leaves [self] alone. *)
Lemma for_each_maneuver_total (burn_rate : Q) (maneuvers : list MissionPhase) :
  forall (total : Q) (bd : list BreakdownEntry) (self : MarsLandingFuelSystem),
  exists (total' : Q) (bd' : list BreakdownEntry),
    for_each_maneuver burn_rate maneuvers total bd self = Ok ((total', bd'), self).
Proof.
  induction maneuvers as [|m rest IH]; intros total bd self.
  - exists total, bd. reflexivity.
  - cbn [for_each_maneuver]. unfold bind.
    destruct (0 <? nominal_burn_rate m) eqn:Hnom.
    + apply Qlt_bool_iff in Hnom. rewrite (truediv_pos _ _ _ Hnom). apply IH.
    + unfold ret at 1. apply IH.
Qed.

(** Over well-formed maneuvers the running total only grows. *)
Lemma for_each_maneuver_grows (burn_rate : Q) (maneuvers : list MissionPhase) :
  Forall well_formed maneuvers ->
  forall (total : Q) (bd : list BreakdownEntry) (self self' : MarsLandingFuelSystem)
         (total' : Q) (bd' : list BreakdownEntry),
    for_each_maneuver burn_rate maneuvers total bd self = Ok ((total', bd'), self') ->
    total <= total'.
Proof.
  induction 1 as [|m rest Hm Hrest IH]; intros total bd self self' total' bd' Hrun.
  - cbn in Hrun. unfold ret in Hrun. injection Hrun as <- _ _. apply Qle_refl.
  - cbn [for_each_maneuver] in Hrun. unfold bind in Hrun.
    pose proof Hm as (Hnom & _).
    rewrite (proj2 (Qlt_bool_iff _ _) Hnom) in Hrun.
    rewrite (truediv_pos _ _ _ Hnom) in Hrun.
    apply IH in Hrun.
    pose proof (adjusted_fuel_nonneg burn_rate m Hm). lra.
Qed.

(** An empty list costs nothing. *)
Lemma predict_fuel_requirements_empty
    (burn_rate : Q) (anomaly_detected : bool) (self : MarsLandingFuelSystem) :
  dict_get REMAINING_MANEUVERS (mission_phase self) [] = [] ->
  predict_fuel_requirements burn_rate anomaly_detected self =
    Ok ({| required_fuel := 0.0;
           with_margin := 0.0 + (if anomaly_detected then 0.0 * 0.20 else 0.0 * 0.05);
           breakdown := [];
           confidence := 100.0 |}, self).
Proof.
  intros Hempty. unfold predict_fuel_requirements, bind, get_self.
  rewrite Hempty. cbn [for_each_maneuver]. unfold ret at 1. cbn [fst snd].
  destruct anomaly_detected; reflexivity.
Qed.

(** The predictor returns for every burn rate, flag and phase, and leaves
    [self] alone; its total is not negative. *)
Lemma predict_fuel_requirements_total
    (burn_rate : Q) (anomaly_detected : bool) (self : MarsLandingFuelSystem) :
  exists (total : Q) (bd : list BreakdownEntry),
    for_each_maneuver burn_rate
      (dict_get REMAINING_MANEUVERS (mission_phase self) []) 0.0 [] self
      = Ok ((total, bd), self) /\
    0 <= total /\
    let margin := if anomaly_detected then total * 0.20 else total * 0.05 in
    predict_fuel_requirements burn_rate anomaly_detected self =
      Ok ({| required_fuel := total;
             with_margin := total + margin;
             breakdown := bd;
             confidence := if 0 <? total then (1 - margin / total) * 100 else 100.0 |},
          self).
Proof.
  unfold predict_fuel_requirements, bind, get_self.
  set (maneuvers := dict_get REMAINING_MANEUVERS (mission_phase self) []).
  destruct (for_each_maneuver_total burn_rate maneuvers 0.0 [] self)
    as (total & bd & Hrun).
  exists total, bd. rewrite Hrun. cbn [fst snd].
  split; [reflexivity|]. split.
  - pose proof (for_each_maneuver_grows burn_rate maneuvers
                  (remaining_maneuvers_get_well_formed (mission_phase self))
                  _ _ _ _ _ _ Hrun) as Hle.
    lra.
  - destruct (0 <? total) eqn:Hpos.
    + apply Qlt_bool_iff in Hpos. rewrite (truediv_pos _ _ _ Hpos). reflexivity.
    + reflexivity.
Qed.

(** C3.  For every burn rate, negative ones included, every anomaly flag and
    every mission phase, the predictor returns a margined requirement that is
    at least the required fuel, and the margin between them is 0.20 times the
    required fuel under an anomaly and 0.05 times the required fuel
    otherwise. *)
Theorem predict_fuel_requirements_margin
    (burn_rate : Q) (anomaly_detected : bool) (self : MarsLandingFuelSystem) :
  exists p : FuelPrediction,
    predict_fuel_requirements burn_rate anomaly_detected self = Ok (p, self) /\
    required_fuel p <= with_margin p /\
    with_margin p - required_fuel p ==
      (if anomaly_detected then 0.20 else 0.05) * required_fuel p.
Proof.
  destruct (predict_fuel_requirements_total burn_rate anomaly_detected self)
    as (total & bd & _ & Htotal & Hrun).
  eexists. split; [exact Hrun|].
  cbn [required_fuel with_margin].
  destruct anomaly_detected; split; lra.
Qed.

(** On the powered descent at a negative burn rate of -3 kg/s the three
    remaining maneuvers still cost fuel. *)
Example predict_fuel_requirements_negative_rate :
  exists p : FuelPrediction,
    predict_fuel_requirements (-3) true (example_system 853 "powered_descent" 5000 80)
      = Ok (p, example_system 853 "powered_descent" 5000 80) /\
    required_fuel p == 119.775 /\
    with_margin p == 143.73 /\
    length (breakdown p) = 3%nat.
Proof.
  eexists. split; [vm_compute; reflexivity|]. repeat split.
Qed.

(** C6.  For a phase whose list of remaining maneuvers is empty, and every
    burn rate and anomaly flag, the predictor returns a required fuel of 0, a
    margined requirement of 0, an empty breakdown and a confidence of 100. *)
Theorem predict_fuel_requirements_terminal
    (burn_rate : Q) (anomaly_detected : bool) (self : MarsLandingFuelSystem) :
  dict_get REMAINING_MANEUVERS (mission_phase self) [] = [] ->
  exists p : FuelPrediction,
    predict_fuel_requirements burn_rate anomaly_detected self = Ok (p, self) /\
    required_fuel p == 0 /\
    with_margin p == 0 /\
    breakdown p = [] /\
    confidence p == 100.
Proof.
  intros Hempty. eexists.
  split; [apply predict_fuel_requirements_empty; exact Hempty|].
  cbn [required_fuel with_margin breakdown confidence].
  destruct anomaly_detected; repeat split.
Qed.

(** The landing phase is such a phase. *)
Lemma predict_fuel_requirements_terminal_landing :
  exists p : FuelPrediction,
    predict_fuel_requirements 12 true (example_system 118 "landing" 95 3)
      = Ok (p, example_system 118 "landing" 95 3) /\
    required_fuel p == 0 /\
    with_margin p == 0 /\
    breakdown p = [] /\
    confidence p == 100.
Proof.
  apply (predict_fuel_requirements_terminal 12 true (example_system 118 "landing" 95 3)).
  reflexivity.
Defined.

(** C7.  In a phase that the profile table does not list, the estimator
    measures the deviation against the default nominal rate of 6.0 kg/s and
    the predictor works on an empty list of maneuvers; both return. *)
Theorem unknown_phase_defaults
    (fuel current_time burn_rate : Q) (anomaly_detected : bool)
    (self : MarsLandingFuelSystem) :
  PHASE_BURN_RATES !! mission_phase self = None ->
  dict_get PHASE_BURN_RATES (mission_phase self) 6.0 = 6.0 /\
  dict_get REMAINING_MANEUVERS (mission_phase self) [] = [] /\
  (exists (c : ConsumptionData) (self' : MarsLandingFuelSystem),
     calculate_burn_rate fuel current_time self = Ok (c, self') /\
     deviation_percent c = (actual_burn_rate c - 6.0) / 6.0 * 100 /\
     (anomaly_flag c = true <-> 0.15 < Qabs ((actual_burn_rate c - 6.0) / 6.0))) /\
  (exists p : FuelPrediction,
     predict_fuel_requirements burn_rate anomaly_detected self = Ok (p, self) /\
     breakdown p = [] /\
     required_fuel p == 0 /\
     with_margin p == 0).
Proof.
  intros Hrates.
  pose proof (proj1 (unknown_phase_both_tables _) Hrates) as Hmaneuvers.
  assert (Hnominal : dict_get PHASE_BURN_RATES (mission_phase self) 6.0 = 6.0).
  { unfold dict_get. rewrite Hrates. reflexivity. }
  assert (Hlist : dict_get REMAINING_MANEUVERS (mission_phase self) [] = []).
  { unfold dict_get. rewrite Hmaneuvers. reflexivity. }
  split; [exact Hnominal|]. split; [exact Hlist|]. split.
  - eexists. eexists. split; [apply calculate_burn_rate_total|].
    cbn [actual_burn_rate deviation_percent anomaly_flag].
    rewrite Hnominal. split; [reflexivity|]. apply Qlt_bool_iff.
  - eexists. split; [apply predict_fuel_requirements_empty; exact Hlist|].
    cbn [required_fuel with_margin breakdown].
    destruct anomaly_detected; repeat split.
Qed.

Lemma unknown_phase_defaults_orbit :
  dict_get PHASE_BURN_RATES "orbit" 6.0 = 6.0 /\
  dict_get REMAINING_MANEUVERS "orbit" [] = [] /\
  (exists (c : ConsumptionData) (self' : MarsLandingFuelSystem),
     calculate_burn_rate 500 1 (example_system 506 "orbit" 2000 45) = Ok (c, self') /\
     deviation_percent c = (actual_burn_rate c - 6.0) / 6.0 * 100 /\
     (anomaly_flag c = true <-> 0.15 < Qabs ((actual_burn_rate c - 6.0) / 6.0))) /\
  (exists p : FuelPrediction,
     predict_fuel_requirements 6 false (example_system 506 "orbit" 2000 45)
       = Ok (p, example_system 506 "orbit" 2000 45) /\
     breakdown p = [] /\
     required_fuel p == 0 /\
     with_margin p == 0).
Proof.
  apply (unknown_phase_defaults 500 1 6 false (example_system 506 "orbit" 2000 45)).
  reflexivity.
Defined.

(** ** Stage 4: the alert generator *)

Lemma abort_window_not_shortage :
  ABORT_WINDOW_WARNING <> "CRITICAL: Insufficient fuel for nominal landing".
Proof. discriminate. Qed.

Lemma abort_window_not_deficit (amount : string) :
  ABORT_WINDOW_WARNING <> "DEFICIT: " +:+ amount +:+ " kg shortfall".
Proof. discriminate. Qed.

Lemma abort_window_not_deviation (amount : string) :
  ABORT_WINDOW_WARNING <> "ALERT: Burn rate " +:+ amount +:+ "% from nominal".
Proof. discriminate. Qed.

Lemma abort_window_not_time (amount : string) :
  ABORT_WINDOW_WARNING <> "TIME CRITICAL: " +:+ amount +:+ "s to depletion".
Proof. discriminate. Qed.

(** The generator returns for every input, leaves [self] alone, and its
    warnings are those of the four rules, in the order of the rules. *)
Lemma generate_alerts_warnings
    (safety_eval : SafetyEvaluation) (consumption_data : ConsumptionData)
    (prediction : FuelPrediction) (self : MarsLandingFuelSystem) :
  exists a : AlertPackage,
    generate_alerts safety_eval consumption_data prediction self = Ok (a, self) /\
    warnings a =
      shortage_warnings safety_eval ++ abort_window_warnings safety_eval
        ++ deviation_warnings consumption_data ++ time_warnings safety_eval /\
    priority a = status safety_eval.
Proof.
  unfold generate_alerts, shortage_warnings, abort_window_warnings,
    deviation_warnings, time_warnings, ABORT_WINDOW_WARNING.
  destruct (fuel_sufficient safety_eval), (abort_capable safety_eval),
    (bool_decide (status safety_eval = "CRITICAL")),
    (anomaly_flag consumption_data),
    (ext_lt_bool (time_remaining safety_eval) ALERT_THRESHOLD);
    cbn [negb andb app];
    (eexists; split; [reflexivity|]; split; reflexivity).
Qed.

Lemma abort_window_in_warnings
    (safety_eval : SafetyEvaluation) (consumption_data : ConsumptionData) :
  ABORT_WINDOW_WARNING ∈
    shortage_warnings safety_eval ++ abort_window_warnings safety_eval
      ++ deviation_warnings consumption_data ++ time_warnings safety_eval
  <-> ABORT_WINDOW_WARNING ∈ abort_window_warnings safety_eval.
Proof.
  rewrite !elem_of_app.
  split; [|tauto].
  intros [Hin|[Hin|[Hin|Hin]]]; [exfalso| exact Hin |exfalso|exfalso].
  - unfold shortage_warnings in Hin.
    destruct (fuel_sufficient safety_eval).
    + apply elem_of_nil in Hin. exact Hin.
    + apply elem_of_cons in Hin as [Hin|Hin];
        [exact (abort_window_not_shortage Hin)|].
      apply list_elem_of_singleton in Hin.
      exact (abort_window_not_deficit _ Hin).
  - unfold deviation_warnings in Hin.
    destruct (anomaly_flag consumption_data).
    + apply list_elem_of_singleton in Hin.
      exact (abort_window_not_deviation _ Hin).
    + apply elem_of_nil in Hin. exact Hin.
  - unfold time_warnings in Hin.
    destruct (ext_lt_bool (time_remaining safety_eval) ALERT_THRESHOLD).
    + apply list_elem_of_singleton in Hin.
      exact (abort_window_not_time _ Hin).
    + apply elem_of_nil in Hin. exact Hin.
Qed.

(** C8.  For every safety assessment, consumption sample and prediction, the
    generator emits the abort-window warning exactly when the assessment is
    not abort-capable and its status is not CRITICAL.  Under CAUTION with
    insufficient fuel and no abort capability the two insufficient-fuel
    warnings and the abort-window warning are all emitted. *)
Theorem generate_alerts_abort_window
    (safety_eval : SafetyEvaluation) (consumption_data : ConsumptionData)
    (prediction : FuelPrediction) (self : MarsLandingFuelSystem) :
  exists a : AlertPackage,
    generate_alerts safety_eval consumption_data prediction self = Ok (a, self) /\
    ("WARNING: Abort-to-orbit window closing" ∈ warnings a <->
       abort_capable safety_eval = false /\ status safety_eval <> "CRITICAL") /\
    (status safety_eval = "CAUTION" ->
     fuel_sufficient safety_eval = false ->
     abort_capable safety_eval = false ->
       "CRITICAL: Insufficient fuel for nominal landing" ∈ warnings a /\
       "DEFICIT: " +:+ format_1f false (Qabs (fuel_margin safety_eval))
         +:+ " kg shortfall" ∈ warnings a /\
       "WARNING: Abort-to-orbit window closing" ∈ warnings a).
Proof.
  destruct (generate_alerts_warnings safety_eval consumption_data prediction self)
    as (a & Hrun & Hwarn & _).
  exists a. split; [exact Hrun|]. rewrite Hwarn.
  fold ABORT_WINDOW_WARNING.
  split.
  - rewrite abort_window_in_warnings. unfold abort_window_warnings.
    destruct (abort_capable safety_eval); cbn [negb andb].
    + rewrite elem_of_nil. split; [tauto|]. intros [Hcap _]. discriminate Hcap.
    + case_bool_decide as Hstatus; cbn [negb].
      * rewrite elem_of_nil. tauto.
      * rewrite list_elem_of_singleton. tauto.
  - intros Hstatus Hfuel Hcap.
    unfold shortage_warnings, abort_window_warnings.
    rewrite Hfuel, Hcap, Hstatus. cbn [negb andb].
    rewrite !elem_of_app, !elem_of_cons.
    split; [left; left; reflexivity|].
    split; [left; right; left; reflexivity|].
    right; left; left; reflexivity.
Qed.

(** 10 kg short under CAUTION, past the abort window: the three warnings
    are emitted together. *)
Lemma generate_alerts_abort_window_caution :
  exists a : AlertPackage,
    generate_alerts caution_assessment nominal_sample empty_prediction small_delta_state
      = Ok (a, small_delta_state) /\
    "CRITICAL: Insufficient fuel for nominal landing" ∈ warnings a /\
    "DEFICIT: " +:+ format_1f false (Qabs (fuel_margin caution_assessment))
      +:+ " kg shortfall" ∈ warnings a /\
    "WARNING: Abort-to-orbit window closing" ∈ warnings a.
Proof.
  destruct (generate_alerts_abort_window caution_assessment nominal_sample
              empty_prediction small_delta_state)
    as (a & Hrun & _ & Hall).
  exists a. split; [exact Hrun|].
  apply Hall; reflexivity.
Defined.

(** An assessment of the evaluator itself on which the three warnings meet:
    90 kg in the landing phase, 95 m up at 3 m/s, burning the nominal
    12 kg/s. *)
Example generate_alerts_caution_run :
  exists (snap : Snapshot) (self' : MarsLandingFuelSystem),
    run_example 96 "landing" 95 3 (-6.0) = Ok (snap, self') /\
    snap_status snap = "CAUTION" /\
    snap_abort_capable snap = false /\
    snap_fuel_margin snap == -10 /\
    snap_warnings snap =
      [ "CRITICAL: Insufficient fuel for nominal landing";
        "DEFICIT: 10.0 kg shortfall";
        "WARNING: Abort-to-orbit window closing";
        "TIME CRITICAL: 7.5s to depletion" ] /\
    snap_recommendations snap =
      [ "EMERGENCY: Optimize trajectory NOW";
        "Consider emergency landing procedures" ].
Proof.
  eexists. eexists. split; [vm_compute; reflexivity|].
  repeat split.
Qed.

(** ** The monitoring cycle and the phase setter *)

(** C9.  A monitoring cycle returns, and the state it leaves differs from the
    state it found only in [previous_fuel_mass], now the current fuel mass,
    and [previous_timestamp], now the time of the cycle: the current fuel
    mass, the altitude, the velocity and the mission phase (and the alert
    history) are as before. *)
Theorem monitor_cycle_frame
    (current_time : Q) (stamp : string) (self : MarsLandingFuelSystem) :
  exists (snap : Snapshot) (self' : MarsLandingFuelSystem),
    monitor_cycle current_time stamp self = Ok (snap, self') /\
    previous_fuel_mass self' = current_fuel_mass self /\
    previous_timestamp self' = current_time /\
    current_fuel_mass self' = current_fuel_mass self /\
    altitude self' = altitude self /\
    velocity self' = velocity self /\
    mission_phase self' = mission_phase self /\
    alert_history self' = alert_history self.
Proof.
  unfold monitor_cycle, bind, get_self.
  rewrite calculate_burn_rate_total.
  cbn [actual_burn_rate anomaly_flag current_fuel].
  match goal with
  | |- context [predict_fuel_requirements ?r ?b ?s] =>
      destruct (predict_fuel_requirements_total r b s) as (total & bd & _ & _ & Hpredict)
  end.
  cbv zeta in Hpredict. rewrite Hpredict. cbn [with_margin required_fuel].
  match goal with
  | |- context [evaluate_safety_margins ?f ?r ?b ?s] =>
      destruct (evaluate_safety_margins_total f r b s) as (abort_fuel & _ & Hsafety)
  end.
  rewrite Hsafety.
  match goal with
  | |- context [generate_alerts ?e ?c ?p ?s] =>
      destruct (generate_alerts_warnings e c p s) as (a & Halerts & _)
  end.
  rewrite Halerts.
  eexists. eexists. split; [reflexivity|].
  cbn. repeat split.
Qed.

(** The emergency scenario of the module: 118 kg in the landing phase,
    6 kg burnt in half a second.  Nothing is required any more, and the
    9.3 s left raise the time-critical warning. *)
Example monitor_cycle_emergency :
  exists (snap : Snapshot) (self' : MarsLandingFuelSystem),
    run_example 118 "landing" 95 3 (-6.0) = Ok (snap, self') /\
    snap_burn_rate snap == 12 /\
    snap_anomaly_detected snap = false /\
    snap_required_fuel snap == 0 /\
    snap_fuel_margin snap == 12 /\
    snap_status snap = "CAUTION" /\
    snap_warnings snap =
      [ "WARNING: Abort-to-orbit window closing";
        "TIME CRITICAL: 9.3s to depletion" ] /\
    previous_fuel_mass self' == 112 /\
    previous_timestamp self' == 0.5.
Proof.
  eexists. eexists. split; [vm_compute; reflexivity|].
  repeat split.
Qed.

(** C10.  Setting a phase that the burn-rate table does not list returns
    without raising and leaves the whole state, the mission phase included,
    as it was. *)
Theorem set_mission_phase_unknown (phase : string) (self : MarsLandingFuelSystem) :
  PHASE_BURN_RATES !! phase = None ->
  set_mission_phase phase self = Ok (tt, self).
Proof.
  intros Hunknown. unfold set_mission_phase. rewrite Hunknown. reflexivity.
Qed.

Lemma set_mission_phase_unknown_orbit :
  set_mission_phase "orbit" (example_system 853 "final_approach" 450 12)
    = Ok (tt, example_system 853 "final_approach" 450 12).
Proof.
  apply (set_mission_phase_unknown "orbit" (example_system 853 "final_approach" 450 12)).
  reflexivity.
Defined.

(** A listed phase, by contrast, is stored. *)
Lemma set_mission_phase_known (phase : string) (self : MarsLandingFuelSystem) :
  is_Some (PHASE_BURN_RATES !! phase) ->
  exists self' : MarsLandingFuelSystem,
    set_mission_phase phase self = Ok (tt, self') /\
    mission_phase self' = phase.
Proof.
  intros [rate Hknown]. unfold set_mission_phase. rewrite Hknown.
  eexists. split; reflexivity.
Qed.

(** ** Further properties of the methods *)

(** *** Sensor update *)

Lemma pymax_zero_nonneg (x : Q) : 0 <= pymax 0 x.
Proof.
  unfold pymax. destruct (0 <? x) eqn:E.
  - apply Qlt_bool_iff in E. lra.
  - apply Qle_refl.
Qed.

(** X1.  [update_sensors] returns for every triple of deltas; it adds each
    delta to its sensor and clamps the sum at zero, so the fuel mass, the
    altitude and the velocity it leaves are never negative, and it touches
    nothing else of the object. *)
Theorem update_sensors_clamps
    (fuel_delta altitude_delta velocity_delta : Q) (self : MarsLandingFuelSystem) :
  exists self' : MarsLandingFuelSystem,
    update_sensors fuel_delta altitude_delta velocity_delta self = Ok (tt, self') /\
    current_fuel_mass self' == Qmax 0 (current_fuel_mass self + fuel_delta) /\
    altitude self' == Qmax 0 (altitude self + altitude_delta) /\
    velocity self' == Qmax 0 (velocity self + velocity_delta) /\
    0 <= current_fuel_mass self' /\
    0 <= altitude self' /\
    0 <= velocity self' /\
    previous_fuel_mass self' = previous_fuel_mass self /\
    previous_timestamp self' = previous_timestamp self /\
    mission_phase self' = mission_phase self /\
    alert_history self' = alert_history self.
Proof.
  eexists. split; [reflexivity|].
  cbn [current_fuel_mass altitude velocity previous_fuel_mass previous_timestamp
       mission_phase alert_history].
  rewrite <- !pymax_spec.
  repeat split; try reflexivity; apply pymax_zero_nonneg.
Qed.

(** *** Abort-to-orbit fuel *)

(** X2.  The abort-to-orbit estimate never grows with altitude and never
    shrinks with velocity: a higher and slower vehicle needs no more fuel to
    abort than a lower and faster one. *)
Theorem abort_to_orbit_fuel_monotone (low high : MarsLandingFuelSystem) :
  altitude low <= altitude high ->
  velocity high <= velocity low ->
  exists fuel_low fuel_high : Q,
    _calculate_abort_to_orbit_fuel low = Ok (fuel_low, low) /\
    _calculate_abort_to_orbit_fuel high = Ok (fuel_high, high) /\
    fuel_high <= fuel_low.
Proof.
  intros Halt Hvel.
  eexists. eexists.
  split; [apply abort_to_orbit_fuel_total|].
  split; [apply abort_to_orbit_fuel_total|].
  rewrite !pymax_spec.
  assert (Hfactor : Qmax 0 (altitude low / 5000.0) <= Qmax 0 (altitude high / 5000.0)).
  { apply Q.max_le_compat_l. unfold Qdiv. apply Qmult_le_compat_r; [exact Halt|].
    discriminate. }
  assert (Hv : velocity high / 100.0 <= velocity low / 100.0).
  { unfold Qdiv. apply Qmult_le_compat_r; [exact Hvel|]. discriminate. }
  lra.
Qed.

Lemma abort_to_orbit_fuel_monotone_descent :
  exists fuel_low fuel_high : Q,
    _calculate_abort_to_orbit_fuel (example_system 853 "landing" 95 45)
      = Ok (fuel_low, example_system 853 "landing" 95 45) /\
    _calculate_abort_to_orbit_fuel (example_system 853 "landing" 2000 3)
      = Ok (fuel_high, example_system 853 "landing" 2000 3) /\
    fuel_high <= fuel_low.
Proof.
  apply (abort_to_orbit_fuel_monotone
           (example_system 853 "landing" 95 45) (example_system 853 "landing" 2000 3));
    apply Qle_bool_iff; reflexivity.
Defined.

(** X3.  The estimate is at most 250 kg plus 0.3 kg per m/s of velocity, and
    is exactly that on the ground and below (altitude at most zero); between
    the ground and 5000 m, at a velocity that is not negative, it is at
    least 200 kg. *)
Theorem abort_to_orbit_fuel_bounds (self : MarsLandingFuelSystem) :
  exists fuel : Q,
    _calculate_abort_to_orbit_fuel self = Ok (fuel, self) /\
    fuel <= 250 + 30 * (velocity self / 100) /\
    (altitude self <= 0 -> fuel == 250 + 30 * (velocity self / 100)) /\
    (altitude self <= 5000 -> 0 <= velocity self -> 200 <= fuel).
Proof.
  eexists. split; [apply abort_to_orbit_fuel_total|].
  rewrite pymax_spec.
  assert (Hfive : altitude self / 5000.0 == altitude self * (1 # 5000))
    by (unfold Qdiv; apply Qmult_comp; reflexivity).
  assert (Hhundred : velocity self / 100.0 == velocity self * (1 # 100))
    by (unfold Qdiv; apply Qmult_comp; reflexivity).
  assert (Hhundred' : velocity self / 100 == velocity self * (1 # 100))
    by (unfold Qdiv; apply Qmult_comp; reflexivity).
  rewrite Hfive, Hhundred, Hhundred'.
  split; [|split].
  - pose proof (Q.le_max_l 0 (altitude self * (1 # 5000))). lra.
  - intros Hground. rewrite Q.max_l by lra. lra.
  - intros Hceil Hvel.
    destruct (Q.max_spec 0 (altitude self * (1 # 5000))) as [[_ ->]|[_ ->]]; lra.
Qed.

Lemma abort_to_orbit_fuel_bounds_touchdown :
  exists fuel : Q,
    _calculate_abort_to_orbit_fuel (example_system 118 "landing" 0 3)
      = Ok (fuel, example_system 118 "landing" 0 3) /\
    fuel == 250.9.
Proof.
  destruct (abort_to_orbit_fuel_bounds (example_system 118 "landing" 0 3))
    as (fuel & Hrun & _ & Hground & _).
  exists fuel. split; [exact Hrun|].
  rewrite Hground; [reflexivity|]. apply Qle_bool_iff. reflexivity.
Defined.

(** *** Safety evaluation *)

(** X4.  More fuel on board, or less fuel required, never worsens the
    assessment: the margin does not shrink, a sufficient-fuel or
    abort-capable verdict is kept, and the status does not drop in
    severity rank. *)
Theorem evaluate_safety_margins_monotone
    (fuel_less fuel_more required_more required_less burn_rate : Q)
    (self : MarsLandingFuelSystem) :
  fuel_less <= fuel_more ->
  required_less <= required_more ->
  exists worse better : SafetyEvaluation,
    evaluate_safety_margins fuel_less required_more burn_rate self = Ok (worse, self) /\
    evaluate_safety_margins fuel_more required_less burn_rate self = Ok (better, self) /\
    fuel_margin worse <= fuel_margin better /\
    (fuel_sufficient worse = true -> fuel_sufficient better = true) /\
    (abort_capable worse = true -> abort_capable better = true) /\
    (status_rank (status worse) <= status_rank (status better))%nat.
Proof.
  intros Hfuel Hreq.
  destruct (evaluate_safety_margins_total fuel_less required_more burn_rate self)
    as (abort_fuel & Habort & Hworse).
  destruct (evaluate_safety_margins_total fuel_more required_less burn_rate self)
    as (abort_fuel' & Habort' & Hbetter).
  rewrite Habort in Habort'. injection Habort' as <-.
  eexists. eexists. split; [exact Hworse|]. split; [exact Hbetter|].
  cbn [fuel_margin fuel_sufficient abort_capable status]. unfold SAFE_RESERVE.
  assert (Hmargin : fuel_less - required_more - 100 <= fuel_more - required_less - 100)
    by lra.
  assert (Hsuff : (0 <=? fuel_less - required_more - 100) = true ->
                  (0 <=? fuel_more - required_less - 100) = true).
  { rewrite !Qle_bool_iff. lra. }
  assert (Hlow : (-50 <=? fuel_less - required_more - 100) = true ->
                 (-50 <=? fuel_more - required_less - 100) = true).
  { rewrite !Qle_bool_iff. lra. }
  assert (Hcap : (abort_fuel + 50 <=? fuel_less) = true ->
                 (abort_fuel + 50 <=? fuel_more) = true).
  { rewrite !Qle_bool_iff. lra. }
  split; [exact Hmargin|]. split; [exact Hsuff|]. split; [exact Hcap|].
  destruct (0 <=? fuel_less - required_more - 100);
    destruct (-50 <=? fuel_less - required_more - 100);
    destruct (abort_fuel + 50 <=? fuel_less);
    try rewrite (Hsuff eq_refl); try rewrite (Hlow eq_refl);
    try rewrite (Hcap eq_refl);
    destruct (0 <=? fuel_more - required_less - 100);
    destruct (-50 <=? fuel_more - required_less - 100);
    destruct (abort_fuel + 50 <=? fuel_more);
    vm_compute; lia.
Qed.

Lemma evaluate_safety_margins_monotone_refuel :
  exists worse better : SafetyEvaluation,
    evaluate_safety_margins 90 0 12 (example_system 96 "landing" 95 3)
      = Ok (worse, example_system 96 "landing" 95 3) /\
    evaluate_safety_margins 400 0 12 (example_system 96 "landing" 95 3)
      = Ok (better, example_system 96 "landing" 95 3) /\
    fuel_margin worse <= fuel_margin better /\
    (fuel_sufficient worse = true -> fuel_sufficient better = true) /\
    (abort_capable worse = true -> abort_capable better = true) /\
    (status_rank (status worse) <= status_rank (status better))%nat.
Proof.
  apply (evaluate_safety_margins_monotone 90 400 0 0 12
           (example_system 96 "landing" 95 3));
    apply Qle_bool_iff; reflexivity.
Defined.

(** *** Fuel requirement *)

Lemma breakdown_total_app (bd : list BreakdownEntry) (entry : BreakdownEntry) :
  breakdown_total (bd ++ [entry]) == breakdown_total bd + bd_fuel_required entry.
Proof.
  induction bd as [|e bd IH]; cbn [app breakdown_total fold_right].
  - lra.
  - fold (breakdown_total (bd ++ [entry])). fold (breakdown_total bd).
    rewrite IH. lra.
Qed.

(** What one pass of the loop adds to its two accumulators. *)
Lemma for_each_maneuver_breakdown (burn_rate : Q) (maneuvers : list MissionPhase) :
  forall (total : Q) (bd : list BreakdownEntry) (self self' : MarsLandingFuelSystem)
         (total' : Q) (bd' : list BreakdownEntry),
    for_each_maneuver burn_rate maneuvers total bd self = Ok ((total', bd'), self') ->
    map bd_phase bd' = map bd_phase bd ++ map name maneuvers /\
    map bd_duration bd' = map bd_duration bd ++ map duration maneuvers /\
    total' - total == breakdown_total bd' - breakdown_total bd.
Proof.
  induction maneuvers as [|m rest IH]; intros total bd self self' total' bd' Hrun.
  - cbn in Hrun. unfold ret in Hrun. injection Hrun as <- <- _.
    rewrite !app_nil_r. repeat split. lra.
  - cbn [for_each_maneuver] in Hrun. unfold bind in Hrun.
    assert (Hstep : exists adjustment,
               for_each_maneuver burn_rate rest
                 (total + duration m * burn_rate * adjustment
                            * (1 + gravity_loss_factor m))
                 (bd ++ [ {| bd_phase := name m;
                             bd_fuel_required :=
                               duration m * burn_rate * adjustment
                                 * (1 + gravity_loss_factor m);
                             bd_duration := duration m |} ]) self
               = Ok ((total', bd'), self')).
    { destruct (0 <? nominal_burn_rate m) eqn:Hnom.
      - apply Qlt_bool_iff in Hnom. rewrite (truediv_pos _ _ _ Hnom) in Hrun.
        eexists. exact Hrun.
      - unfold ret at 1 in Hrun. eexists. exact Hrun. }
    destruct Hstep as (adjustment & Hrest).
    apply IH in Hrest as (Hnames & Hdurations & Hsum).
    rewrite Hnames, Hdurations, !map_app, <- !app_assoc.
    split; [reflexivity|]. split; [reflexivity|].
    rewrite breakdown_total_app in Hsum. cbn [bd_fuel_required] in Hsum. lra.
Qed.

(** Over well-formed maneuvers the loop adds the squared burn rate times the
    cost coefficient of the list. *)
Lemma for_each_maneuver_quadratic (burn_rate : Q) (maneuvers : list MissionPhase) :
  Forall well_formed maneuvers ->
  forall (total : Q) (bd : list BreakdownEntry) (self self' : MarsLandingFuelSystem)
         (total' : Q) (bd' : list BreakdownEntry),
    for_each_maneuver burn_rate maneuvers total bd self = Ok ((total', bd'), self') ->
    total' == total + burn_rate * burn_rate * cost_coefficient maneuvers.
Proof.
  induction 1 as [|m rest Hm Hrest IH]; intros total bd self self' total' bd' Hrun.
  - cbn in Hrun. unfold ret in Hrun. injection Hrun as <- _ _.
    cbn [cost_coefficient fold_right]. lra.
  - cbn [for_each_maneuver] in Hrun. unfold bind in Hrun.
    pose proof Hm as (Hnom & _).
    rewrite (proj2 (Qlt_bool_iff _ _) Hnom) in Hrun.
    rewrite (truediv_pos _ _ _ Hnom) in Hrun.
    apply IH in Hrun. rewrite Hrun.
    cbn [cost_coefficient fold_right]. fold (cost_coefficient rest).
    field. lra.
Qed.

(** X5.  The required fuel is the square of the burn rate times a
    coefficient of the phase alone, the sum over its remaining maneuvers of
    duration * (1 + gravity loss) / nominal rate.  So the requirement is the
    same for a burn rate and its negative, is zero at a zero burn rate, and
    quadruples when the burn rate doubles. *)
Theorem predict_fuel_requirements_quadratic
    (burn_rate : Q) (anomaly_detected : bool) (self : MarsLandingFuelSystem) :
  exists p : FuelPrediction,
    predict_fuel_requirements burn_rate anomaly_detected self = Ok (p, self) /\
    required_fuel p ==
      burn_rate * burn_rate
        * cost_coefficient (dict_get REMAINING_MANEUVERS (mission_phase self) []).
Proof.
  destruct (predict_fuel_requirements_total burn_rate anomaly_detected self)
    as (total & bd & Hloop & _ & Hrun).
  eexists. split; [exact Hrun|]. cbn [required_fuel].
  rewrite (for_each_maneuver_quadratic burn_rate _
             (remaining_maneuvers_get_well_formed (mission_phase self))
             _ _ _ _ _ _ Hloop).
  lra.
Qed.

(** The coefficients of the four phases of the table. *)
Example cost_coefficient_table :
  cost_coefficient (dict_get REMAINING_MANEUVERS "powered_descent" []) == 1597 # 120 /\
  cost_coefficient (dict_get REMAINING_MANEUVERS "constant_deceleration" []) == 733 # 120 /\
  cost_coefficient (dict_get REMAINING_MANEUVERS "final_approach" []) == 103 # 120 /\
  cost_coefficient (dict_get REMAINING_MANEUVERS "landing" []) == 0.
Proof. repeat split. Qed.

(** X6.  The breakdown lists the remaining maneuvers of the phase by name
    and duration, in the order of the table, and the required fuel is the
    sum of its entries. *)
Theorem predict_fuel_requirements_breakdown
    (burn_rate : Q) (anomaly_detected : bool) (self : MarsLandingFuelSystem) :
  exists p : FuelPrediction,
    predict_fuel_requirements burn_rate anomaly_detected self = Ok (p, self) /\
    map bd_phase (breakdown p) =
      map name (dict_get REMAINING_MANEUVERS (mission_phase self) []) /\
    map bd_duration (breakdown p) =
      map duration (dict_get REMAINING_MANEUVERS (mission_phase self) []) /\
    required_fuel p == breakdown_total (breakdown p).
Proof.
  destruct (predict_fuel_requirements_total burn_rate anomaly_detected self)
    as (total & bd & Hloop & _ & Hrun).
  eexists. split; [exact Hrun|]. cbn [required_fuel breakdown].
  apply for_each_maneuver_breakdown in Hloop as (Hnames & Hdurations & Hsum).
  split; [exact Hnames|]. split; [exact Hdurations|].
  cbn [breakdown_total fold_right] in Hsum. lra.
Qed.

(** X7.  The confidence takes one of three values: 100 when nothing is
    required, and otherwise 80 under an anomaly and 95 without one. *)
Theorem predict_fuel_requirements_confidence
    (burn_rate : Q) (anomaly_detected : bool) (self : MarsLandingFuelSystem) :
  exists p : FuelPrediction,
    predict_fuel_requirements burn_rate anomaly_detected self = Ok (p, self) /\
    0 <= required_fuel p /\
    (required_fuel p == 0 -> confidence p == 100) /\
    (0 < required_fuel p -> confidence p == if anomaly_detected then 80 else 95).
Proof.
  destruct (predict_fuel_requirements_total burn_rate anomaly_detected self)
    as (total & bd & _ & Htotal & Hrun).
  eexists. split; [exact Hrun|]. cbn [required_fuel confidence].
  split; [exact Htotal|]. split.
  - intros Hzero. rewrite (proj2 (Qlt_bool_false_iff 0 total)) by lra. reflexivity.
  - intros Hpos. rewrite (proj2 (Qlt_bool_iff 0 total) Hpos).
    destruct anomaly_detected; field; lra.
Qed.

Lemma predict_fuel_requirements_confidence_leak :
  exists p : FuelPrediction,
    predict_fuel_requirements 14 true (example_system 620 "constant_deceleration" 1200 38)
      = Ok (p, example_system 620 "constant_deceleration" 1200 38) /\
    confidence p == 80.
Proof.
  destruct (predict_fuel_requirements_confidence 14 true
              (example_system 620 "constant_deceleration" 1200 38))
    as (p & Hrun & _ & _ & Hpos).
  exists p. split; [exact Hrun|].
  apply Hpos.
  assert (Hvalue : exists p' : FuelPrediction,
             predict_fuel_requirements 14 true
               (example_system 620 "constant_deceleration" 1200 38)
               = Ok (p', example_system 620 "constant_deceleration" 1200 38) /\
             0 < required_fuel p').
  { eexists. split; [vm_compute; reflexivity|reflexivity]. }
  destruct Hvalue as (p' & Hrun' & Hvalue).
  rewrite Hrun in Hrun'. injection Hrun' as <-. exact Hvalue.
Defined.

(** *** The monitoring cycle, stage by stage *)

(** A cycle is the four stages in a row on the current fuel mass, the
    last three on the state that the first one leaves. *)
Lemma monitor_cycle_stages
    (current_time : Q) (stamp : string) (self : MarsLandingFuelSystem) :
  exists (c : ConsumptionData) (self' : MarsLandingFuelSystem)
         (p : FuelPrediction) (e : SafetyEvaluation) (a : AlertPackage),
    calculate_burn_rate (current_fuel_mass self) current_time self = Ok (c, self') /\
    predict_fuel_requirements (actual_burn_rate c) (anomaly_flag c) self' = Ok (p, self') /\
    evaluate_safety_margins (current_fuel c) (with_margin p) (actual_burn_rate c) self'
      = Ok (e, self') /\
    generate_alerts e c p self' = Ok (a, self') /\
    monitor_cycle current_time stamp self =
      Ok ({| snap_timestamp := stamp;
             snap_mission_phase := mission_phase self';
             snap_status := status e;
             snap_current_fuel := current_fuel c;
             snap_burn_rate := actual_burn_rate c;
             snap_burn_rate_deviation := deviation_percent c;
             snap_anomaly_detected := anomaly_flag c;
             snap_required_fuel := required_fuel p;
             snap_fuel_margin := fuel_margin e;
             snap_fuel_at_touchdown := current_fuel c - required_fuel p;
             snap_time_remaining := time_remaining e;
             snap_abort_capable := abort_capable e;
             snap_confidence := confidence p;
             snap_warnings := warnings a;
             snap_recommendations := recommendations a;
             snap_altitude := altitude self';
             snap_velocity := velocity self' |}, self').
Proof.
  unfold monitor_cycle, bind, get_self.
  pose proof (calculate_burn_rate_total (current_fuel_mass self) current_time self)
    as Hburn. cbv zeta in Hburn.
  rewrite Hburn.
  match goal with
  | |- context [predict_fuel_requirements ?r ?b ?s] =>
      destruct (predict_fuel_requirements_total r b s) as (total & bd & _ & _ & Hpredict)
  end.
  cbv zeta in Hpredict. rewrite Hpredict.
  match goal with
  | |- context [evaluate_safety_margins ?f ?r ?b ?s] =>
      destruct (evaluate_safety_margins_total f r b s) as (abort_fuel & _ & Hsafety)
  end.
  rewrite Hsafety.
  match goal with
  | |- context [generate_alerts ?e ?c ?p ?s] =>
      destruct (generate_alerts_warnings e c p s) as (a & Halerts & _)
  end.
  rewrite Halerts.
  do 5 eexists.
  split; [reflexivity|]. split; [exact Hpredict|]. split; [exact Hsafety|].
  split; [exact Halerts|]. reflexivity.
Qed.

Lemma pymax_zero_of_nonneg (x : Q) : 0 <= x -> pymax 0 x == x.
Proof. intros H. rewrite pymax_spec. apply Q.max_r. exact H. Qed.

(** The explicit results of the first three stages of a cycle. *)
Lemma monitor_cycle_values
    (current_time : Q) (stamp : string) (self : MarsLandingFuelSystem) :
  exists (snap : Snapshot) (self' : MarsLandingFuelSystem) (abort_fuel : Q),
    monitor_cycle current_time stamp self = Ok (snap, self') /\
    _calculate_abort_to_orbit_fuel self = Ok (abort_fuel, self) /\
    let rate := (previous_fuel_mass self - current_fuel_mass self)
                  / effective_time_delta current_time self in
    let nominal := dict_get PHASE_BURN_RATES (mission_phase self) 6.0 in
    let deviation := (rate - nominal) / nominal in
    let anomaly := BURN_RATE_TOLERANCE <? Qabs deviation in
    let total := snap_required_fuel snap in
    let margin := if anomaly then total * 0.20 else total * 0.05 in
    snap_burn_rate snap = rate /\
    snap_burn_rate_deviation snap = deviation * 100 /\
    snap_anomaly_detected snap = anomaly /\
    snap_current_fuel snap = current_fuel_mass self /\
    total == rate * rate
               * cost_coefficient (dict_get REMAINING_MANEUVERS (mission_phase self) []) /\
    0 <= total /\
    snap_confidence snap = (if 0 <? total then (1 - margin / total) * 100 else 100.0) /\
    snap_fuel_margin snap = current_fuel_mass self - (total + margin) - SAFE_RESERVE /\
    snap_fuel_at_touchdown snap = current_fuel_mass self - total /\
    snap_abort_capable snap = (abort_fuel + 50 <=? current_fuel_mass self) /\
    snap_time_remaining snap =
      (if 0 <? rate then Fin (current_fuel_mass self / rate) else PosInf) /\
    self' = {| previous_fuel_mass := current_fuel_mass self;
               previous_timestamp := current_time;
               mission_phase := mission_phase self;
               alert_history := alert_history self;
               current_fuel_mass := current_fuel_mass self;
               altitude := altitude self;
               velocity := velocity self |}.
Proof.
  destruct (monitor_cycle_stages current_time stamp self)
    as (c & self' & p & e & a & Hc & Hp & He & Ha & Hrun).
  pose proof (calculate_burn_rate_total (current_fuel_mass self) current_time self)
    as Hc'. cbv zeta in Hc'. rewrite Hc' in Hc. injection Hc as Hc Hself.
  subst c.
  cbn [actual_burn_rate deviation_percent anomaly_flag current_fuel] in *.
  match type of Hp with
  | predict_fuel_requirements ?r ?b ?s = _ =>
      destruct (predict_fuel_requirements_total r b s)
        as (total & bd & Hloop & Htotal & Hp')
  end.
  cbv zeta in Hp'. rewrite Hp' in Hp. injection Hp as Hp. subst p.
  cbn [required_fuel with_margin confidence] in *.
  match type of He with
  | evaluate_safety_margins ?f ?r ?b ?s = _ =>
      destruct (evaluate_safety_margins_total f r b s) as (abort_fuel & Habort & He')
  end.
  rewrite He' in He. injection He as He. subst e.
  cbn [fuel_margin abort_capable time_remaining status] in *.
  assert (Hphase : mission_phase self' = mission_phase self) by (subst self'; reflexivity).
  apply (for_each_maneuver_quadratic _ _
           (remaining_maneuvers_get_well_formed (mission_phase self'))) in Hloop.
  rewrite Hphase in Hloop.
  eexists. eexists. exists abort_fuel.
  split; [exact Hrun|].
  split.
  { rewrite abort_to_orbit_fuel_total in Habort. injection Habort as Habort.
    rewrite abort_to_orbit_fuel_total, <- Habort, <- Hself. reflexivity. }
  cbn [snap_burn_rate snap_burn_rate_deviation snap_anomaly_detected snap_current_fuel
       snap_required_fuel snap_confidence snap_fuel_margin snap_fuel_at_touchdown
       snap_abort_capable snap_time_remaining].
  repeat (split; [reflexivity|]).
  split; [rewrite Hloop; lra|].
  split; [exact Htotal|].
  repeat (split; [reflexivity|]).
  symmetry. exact Hself.
Qed.

(** X9.  A cycle on an object whose fuel mass has not moved since the
    previous sample (as right after construction, or on a second cycle with
    no sensor update in between) reports a burn rate of 0, hence a deviation
    of -100 % and an anomaly, a requirement of 0 with full confidence, all
    the fuel left at touchdown, and an unbounded time to depletion. *)
Theorem monitor_cycle_idle
    (current_time : Q) (stamp : string) (self : MarsLandingFuelSystem) :
  previous_fuel_mass self == current_fuel_mass self ->
  exists (snap : Snapshot) (self' : MarsLandingFuelSystem),
    monitor_cycle current_time stamp self = Ok (snap, self') /\
    snap_burn_rate snap == 0 /\
    snap_burn_rate_deviation snap == -100 /\
    snap_anomaly_detected snap = true /\
    snap_required_fuel snap == 0 /\
    snap_confidence snap == 100 /\
    snap_fuel_at_touchdown snap == current_fuel_mass self /\
    snap_time_remaining snap = PosInf.
Proof.
  intros Hidle.
  destruct (monitor_cycle_values current_time stamp self)
    as (snap & self' & abort_fuel & Hrun & _ & Hvalues).
  cbv zeta in Hvalues.
  destruct Hvalues as (Hrate & Hdev & Hflag & _ & Htotal & _ & Hconf & _ & Htouch & _
                       & Htime & _).
  pose proof (effective_time_delta_pos current_time self) as Hdt.
  pose proof (nominal_rate_positive (mission_phase self)) as Hnom.
  assert (Hzero : (previous_fuel_mass self - current_fuel_mass self)
                    / effective_time_delta current_time self == 0).
  { rewrite Hidle. field. lra. }
  assert (Hdeviation :
            ((previous_fuel_mass self - current_fuel_mass self)
               / effective_time_delta current_time self
             - dict_get PHASE_BURN_RATES (mission_phase self) 6.0)
            / dict_get PHASE_BURN_RATES (mission_phase self) 6.0 == -1).
  { rewrite Hzero. field. lra. }
  assert (Hrequired : snap_required_fuel snap == 0).
  { rewrite Htotal, Hzero. lra. }
  exists snap, self'. split; [exact Hrun|].
  split; [rewrite Hrate; exact Hzero|].
  split; [rewrite Hdev, Hdeviation; reflexivity|].
  split; [rewrite Hflag; apply Qlt_bool_iff; rewrite Hdeviation; reflexivity|].
  split; [exact Hrequired|].
  split.
  { rewrite Hconf. rewrite (proj2 (Qlt_bool_false_iff 0 (snap_required_fuel snap)))
      by lra. reflexivity. }
  split; [rewrite Htouch, Hrequired; lra|].
  rewrite Htime. rewrite (proj2 (Qlt_bool_false_iff 0 _)) by lra. reflexivity.
Qed.

Lemma monitor_cycle_idle_after_init :
  exists (snap : Snapshot) (self' : MarsLandingFuelSystem),
    monitor_cycle 1 "t" (init 853 "constant_deceleration" 0) = Ok (snap, self') /\
    snap_burn_rate snap == 0 /\
    snap_burn_rate_deviation snap == -100 /\
    snap_anomaly_detected snap = true /\
    snap_required_fuel snap == 0 /\
    snap_confidence snap == 100 /\
    snap_fuel_at_touchdown snap == current_fuel_mass (init 853 "constant_deceleration" 0) /\
    snap_time_remaining snap = PosInf.
Proof.
  apply (monitor_cycle_idle 1 "t" (init 853 "constant_deceleration" 0)).
  reflexivity.
Defined.

(** X10.  On an object whose previous sample is its current fuel mass (as
    every cycle leaves it), a sensor update that does not empty the tank
    followed by a cycle a positive time later reports the fuel taken out
    divided by the elapsed time, and leaves the object in the same
    condition for the next update. *)
Theorem update_sensors_then_monitor_cycle
    (fuel_delta altitude_delta velocity_delta current_time : Q) (stamp : string)
    (self : MarsLandingFuelSystem) :
  previous_fuel_mass self == current_fuel_mass self ->
  0 <= current_fuel_mass self + fuel_delta ->
  0 < current_time - previous_timestamp self ->
  exists (snap : Snapshot) (self' : MarsLandingFuelSystem),
    bind (update_sensors fuel_delta altitude_delta velocity_delta)
         (fun _ => monitor_cycle current_time stamp) self = Ok (snap, self') /\
    snap_burn_rate snap == - fuel_delta / (current_time - previous_timestamp self) /\
    snap_current_fuel snap == current_fuel_mass self + fuel_delta /\
    previous_fuel_mass self' == current_fuel_mass self' /\
    previous_timestamp self' = current_time.
Proof.
  intros Hprev Hfuel Hdt.
  unfold bind at 1.
  assert (Hupdate : exists updated : MarsLandingFuelSystem,
             update_sensors fuel_delta altitude_delta velocity_delta self
               = Ok (tt, updated) /\
             current_fuel_mass updated = pymax 0 (current_fuel_mass self + fuel_delta) /\
             previous_fuel_mass updated = previous_fuel_mass self /\
             previous_timestamp updated = previous_timestamp self).
  { eexists. split; [reflexivity|]. repeat split. }
  destruct Hupdate as (updated & Hupdate & Hcur & Hpf & Hpt).
  rewrite Hupdate.
  destruct (monitor_cycle_values current_time stamp updated)
    as (snap & self' & abort_fuel & Hrun & _ & Hvalues).
  cbv zeta in Hvalues.
  destruct Hvalues as (Hrate & _ & _ & Hsnapfuel & _ & _ & _ & _ & _ & _ & _ & Hself).
  exists snap, self'. split; [exact Hrun|].
  assert (Hdelta : effective_time_delta current_time updated
                   = current_time - previous_timestamp self).
  { unfold effective_time_delta. rewrite Hpt.
    rewrite (proj2 (Qle_bool_false_iff _ _) Hdt). reflexivity. }
  pose proof (pymax_zero_of_nonneg _ Hfuel) as Hclamp.
  split.
  { rewrite Hrate, Hdelta, Hpf, Hcur, Hclamp, Hprev. field. lra. }
  split; [rewrite Hsnapfuel, Hcur; exact Hclamp|].
  rewrite Hself. cbn [previous_fuel_mass current_fuel_mass previous_timestamp].
  split; reflexivity.
Qed.

Lemma update_sensors_then_monitor_cycle_nominal :
  exists (snap : Snapshot) (self' : MarsLandingFuelSystem),
    bind (update_sensors (-3.0) (-50) (-2))
         (fun _ => monitor_cycle 0.5 "t") small_delta_state = Ok (snap, self') /\
    snap_burn_rate snap == - (-3.0) / (0.5 - previous_timestamp small_delta_state) /\
    snap_current_fuel snap == current_fuel_mass small_delta_state + (-3.0) /\
    previous_fuel_mass self' == current_fuel_mass self' /\
    previous_timestamp self' = 0.5.
Proof.
  apply (update_sensors_then_monitor_cycle (-3.0) (-50) (-2) 0.5 "t" small_delta_state).
  - reflexivity.
  - apply Qle_bool_iff. reflexivity.
  - reflexivity.
Defined.

(** X11.  The snapshot of a cycle echoes the fuel mass, the altitude, the
    velocity and the phase of the object and the stamp it was given; its
    fuel at touchdown is the current fuel less the required fuel, which is
    never negative; and its margin is at most the fuel at touchdown less the
    100 kg reserve. *)
Theorem monitor_cycle_snapshot
    (current_time : Q) (stamp : string) (self : MarsLandingFuelSystem) :
  exists (snap : Snapshot) (self' : MarsLandingFuelSystem),
    monitor_cycle current_time stamp self = Ok (snap, self') /\
    snap_timestamp snap = stamp /\
    snap_mission_phase snap = mission_phase self /\
    snap_current_fuel snap = current_fuel_mass self /\
    snap_altitude snap = altitude self /\
    snap_velocity snap = velocity self /\
    0 <= snap_required_fuel snap /\
    snap_fuel_at_touchdown snap == snap_current_fuel snap - snap_required_fuel snap /\
    snap_fuel_margin snap <= snap_fuel_at_touchdown snap - 100.
Proof.
  destruct (monitor_cycle_values current_time stamp self)
    as (snap & self' & abort_fuel & Hrun & _ & Hvalues).
  cbv zeta in Hvalues.
  destruct Hvalues as (_ & _ & _ & Hfuel & _ & Htotal & _ & Hmargin & Htouch & _ & _
                       & Hself).
  destruct (monitor_cycle_stages current_time stamp self)
    as (c & self'' & p & e & a & _ & _ & _ & _ & Hrun').
  rewrite Hrun in Hrun'. injection Hrun' as Hsnap Hsame. subst self''.
  exists snap, self'. split; [exact Hrun|].
  assert (Hecho : snap_timestamp snap = stamp /\
                  snap_mission_phase snap = mission_phase self /\
                  snap_altitude snap = altitude self /\
                  snap_velocity snap = velocity self).
  { rewrite Hsnap, Hself. repeat split. }
  destruct Hecho as (Hstamp & Hphase & Halt & Hvel).
  split; [exact Hstamp|]. split; [exact Hphase|]. split; [exact Hfuel|].
  split; [exact Halt|]. split; [exact Hvel|]. split; [exact Htotal|].
  split; [rewrite Htouch, Hfuel; reflexivity|].
  rewrite Hmargin, Htouch. unfold SAFE_RESERVE.
  destruct (BURN_RATE_TOLERANCE <? _); lra.
Qed.

(** *** Alerts *)

(** The recommendations of the generator are those of its three rules, in
    the order of the rules. *)
Lemma generate_alerts_recommendations
    (safety_eval : SafetyEvaluation) (consumption_data : ConsumptionData)
    (prediction : FuelPrediction) (self : MarsLandingFuelSystem) :
  exists a : AlertPackage,
    generate_alerts safety_eval consumption_data prediction self = Ok (a, self) /\
    warnings a =
      shortage_warnings safety_eval ++ abort_window_warnings safety_eval
        ++ deviation_warnings consumption_data ++ time_warnings safety_eval /\
    recommendations a =
      shortage_recommendations safety_eval
        ++ deviation_recommendations consumption_data
        ++ (if bool_decide (status safety_eval = "NOMINAL")
               && (length (warnings a) =? 0)%nat
            then ["Continue nominal descent profile"] else []).
Proof.
  unfold generate_alerts, shortage_warnings, abort_window_warnings,
    deviation_warnings, time_warnings, shortage_recommendations,
    deviation_recommendations, ABORT_WINDOW_WARNING.
  destruct (fuel_sufficient safety_eval), (abort_capable safety_eval),
    (bool_decide (status safety_eval = "CRITICAL")),
    (anomaly_flag consumption_data),
    (ext_lt_bool (time_remaining safety_eval) ALERT_THRESHOLD),
    (bool_decide (status safety_eval = "NOMINAL"));
    cbn [negb andb app length Nat.eqb];
    (eexists; split; [reflexivity|]; split; reflexivity).
Qed.

(** X12.  The generator recommends continuing the nominal descent exactly
    when the status is NOMINAL and it has no warning to give, and then it
    recommends nothing else. *)
Theorem generate_alerts_continue_nominal
    (safety_eval : SafetyEvaluation) (consumption_data : ConsumptionData)
    (prediction : FuelPrediction) (self : MarsLandingFuelSystem) :
  exists a : AlertPackage,
    generate_alerts safety_eval consumption_data prediction self = Ok (a, self) /\
    ("Continue nominal descent profile" ∈ recommendations a <->
       status safety_eval = "NOMINAL" /\ warnings a = []) /\
    ("Continue nominal descent profile" ∈ recommendations a ->
       recommendations a = ["Continue nominal descent profile"]).
Proof.
  destruct (generate_alerts_recommendations safety_eval consumption_data prediction self)
    as (a & Hrun & Hwarn & Hrec).
  exists a. split; [exact Hrun|].
  rewrite Hrec. clear Hrec. rewrite Hwarn. clear Hwarn.
  unfold shortage_warnings, abort_window_warnings, deviation_warnings, time_warnings,
    shortage_recommendations, deviation_recommendations.
  destruct (fuel_sufficient safety_eval), (abort_capable safety_eval),
    (bool_decide (status safety_eval = "CRITICAL")),
    (anomaly_flag consumption_data),
    (ext_lt_bool (time_remaining safety_eval) ALERT_THRESHOLD);
    case_bool_decide as Hnominal;
    cbn [negb andb app length Nat.eqb];
    rewrite ?elem_of_cons, ?elem_of_nil;
    (split; [split|]);
    intros; repeat match goal with
            | H : _ /\ _ |- _ => destruct H
            | H : _ \/ _ |- _ => destruct H
            | H : False |- _ => destruct H
            end;
    try discriminate; try contradiction; try reflexivity;
    try (split; [assumption|reflexivity]); try (left; reflexivity).
Qed.

(** X13.  When the assessment says the fuel is insufficient, the first two
    warnings are the shortage and its deficit, and the recommendations open
    with the abort to orbit if the abort is possible and with the two
    emergency measures if it is not: a shortage never goes without a
    recommendation. *)
Theorem generate_alerts_shortage_first
    (safety_eval : SafetyEvaluation) (consumption_data : ConsumptionData)
    (prediction : FuelPrediction) (self : MarsLandingFuelSystem) :
  fuel_sufficient safety_eval = false ->
  exists (a : AlertPackage) (more_warnings more_recommendations : list string),
    generate_alerts safety_eval consumption_data prediction self = Ok (a, self) /\
    warnings a =
      "CRITICAL: Insufficient fuel for nominal landing"
        :: ("DEFICIT: " +:+ format_1f false (Qabs (fuel_margin safety_eval))
              +:+ " kg shortfall")
        :: more_warnings /\
    recommendations a =
      (if abort_capable safety_eval
       then ["IMMEDIATE: Consider abort to orbit"]
       else [ "EMERGENCY: Optimize trajectory NOW";
              "Consider emergency landing procedures" ])
        ++ more_recommendations /\
    "Continue nominal descent profile" ∉ more_recommendations.
Proof.
  intros Hshort.
  destruct (generate_alerts_recommendations safety_eval consumption_data prediction self)
    as (a & Hrun & Hwarn & Hrec).
  exists a. eexists. eexists. split; [exact Hrun|].
  rewrite Hrec, Hwarn.
  unfold shortage_warnings, shortage_recommendations. rewrite Hshort.
  cbn [app length Nat.eqb]. rewrite andb_false_r.
  split; [reflexivity|]. split; [reflexivity|].
  rewrite app_nil_r. unfold deviation_recommendations.
  destruct (anomaly_flag consumption_data).
  - rewrite list_elem_of_singleton. discriminate.
  - apply not_elem_of_nil.
Qed.

Lemma generate_alerts_shortage_first_caution :
  exists (a : AlertPackage) (more_warnings more_recommendations : list string),
    generate_alerts caution_assessment nominal_sample empty_prediction small_delta_state
      = Ok (a, small_delta_state) /\
    warnings a =
      "CRITICAL: Insufficient fuel for nominal landing"
        :: ("DEFICIT: " +:+ format_1f false (Qabs (fuel_margin caution_assessment))
              +:+ " kg shortfall")
        :: more_warnings /\
    recommendations a =
      (if abort_capable caution_assessment
       then ["IMMEDIATE: Consider abort to orbit"]
       else [ "EMERGENCY: Optimize trajectory NOW";
              "Consider emergency landing procedures" ])
        ++ more_recommendations /\
    "Continue nominal descent profile" ∉ more_recommendations.
Proof.
  apply (generate_alerts_shortage_first caution_assessment nominal_sample
           empty_prediction small_delta_state).
  reflexivity.
Defined.

(** X14.  Alerts on an assessment of the evaluator itself.  Under CRITICAL
    the fuel is insufficient and the abort impossible, so the warnings open
    with the shortage and its deficit, the recommendations open with the two
    emergency measures, and the abort-window warning is left out.  Under
    NOMINAL neither the shortage nor the abort-window rule fires: the only
    warnings are those of the deviation and of the time to depletion. *)
Theorem evaluate_then_generate_alerts
    (fuel required burn_rate : Q) (consumption_data : ConsumptionData)
    (prediction : FuelPrediction) (self : MarsLandingFuelSystem) :
  exists (e : SafetyEvaluation) (a : AlertPackage),
    evaluate_safety_margins fuel required burn_rate self = Ok (e, self) /\
    generate_alerts e consumption_data prediction self = Ok (a, self) /\
    priority a = status e /\
    (status e = "CRITICAL" ->
       warnings a =
         [ "CRITICAL: Insufficient fuel for nominal landing";
           "DEFICIT: " +:+ format_1f false (Qabs (fuel_margin e)) +:+ " kg shortfall" ]
           ++ deviation_warnings consumption_data ++ time_warnings e /\
       recommendations a =
         [ "EMERGENCY: Optimize trajectory NOW";
           "Consider emergency landing procedures" ]
           ++ deviation_recommendations consumption_data /\
       "WARNING: Abort-to-orbit window closing" ∉ warnings a) /\
    (status e = "NOMINAL" ->
       warnings a = deviation_warnings consumption_data ++ time_warnings e).
Proof.
  destruct (evaluate_safety_margins_total fuel required burn_rate self)
    as (abort_fuel & _ & Heval).
  eexists.
  match type of Heval with
  | _ = Ok (?e, _) =>
      destruct (generate_alerts_recommendations e consumption_data prediction self)
        as (a & Hrun & Hwarn & Hrec);
      destruct (generate_alerts_warnings e consumption_data prediction self)
        as (a' & Hrun' & _ & Hpriority)
  end.
  rewrite Hrun in Hrun'. injection Hrun' as <-.
  exists a. split; [exact Heval|]. split; [exact Hrun|].
  split; [exact Hpriority|].
  rewrite Hrec, Hwarn. clear Hrec Hwarn Hrun Hpriority Heval.
  unfold shortage_warnings, abort_window_warnings, shortage_recommendations.
  cbn [status fuel_sufficient abort_capable fuel_margin].
  assert (Hmono : (0 <=? fuel - required - SAFE_RESERVE) = true ->
                  (-50 <=? fuel - required - SAFE_RESERVE) = true).
  { rewrite !Qle_bool_iff. lra. }
  destruct (0 <=? fuel - required - SAFE_RESERVE);
    destruct (-50 <=? fuel - required - SAFE_RESERVE);
    try (specialize (Hmono eq_refl); discriminate Hmono); clear Hmono;
    destruct (abort_fuel + 50 <=? fuel);
    cbn [andb orb negb app]; (split; intros Hstatus; try discriminate Hstatus).
  all: try reflexivity.
  all: rewrite ?bool_decide_eq_true_2 by reflexivity;
       rewrite ?bool_decide_eq_false_2 by discriminate;
       cbn [andb negb app length Nat.eqb].
  all: rewrite ?app_nil_r.
  all: split; [reflexivity|]; split; [reflexivity|].
  all: fold ABORT_WINDOW_WARNING;
       rewrite !not_elem_of_cons; split; [apply abort_window_not_shortage|];
       split; [apply abort_window_not_deficit|];
       rewrite not_elem_of_app; unfold deviation_warnings, time_warnings;
       destruct (anomaly_flag consumption_data);
       destruct (ext_lt_bool _ ALERT_THRESHOLD);
       rewrite ?not_elem_of_cons; repeat split;
       try apply not_elem_of_nil;
       try apply abort_window_not_deviation; try apply abort_window_not_time.
Qed.

Lemma time_warning_only_from_its_rule
    (safety_eval : SafetyEvaluation) (consumption_data : ConsumptionData)
    (amount : string) :
  "TIME CRITICAL: " +:+ amount +:+ "s to depletion" ∈
    shortage_warnings safety_eval ++ abort_window_warnings safety_eval
      ++ deviation_warnings consumption_data ++ time_warnings safety_eval
  <-> "TIME CRITICAL: " +:+ amount +:+ "s to depletion" ∈ time_warnings safety_eval.
Proof.
  rewrite !elem_of_app.
  split; [|tauto].
  intros [Hin|[Hin|[Hin|Hin]]]; [exfalso|exfalso|exfalso|exact Hin].
  - unfold shortage_warnings in Hin.
    destruct (fuel_sufficient safety_eval).
    + apply elem_of_nil in Hin. exact Hin.
    + apply elem_of_cons in Hin as [Hin|Hin]; [discriminate Hin|].
      apply list_elem_of_singleton in Hin. discriminate Hin.
  - unfold abort_window_warnings in Hin.
    destruct (negb (abort_capable safety_eval)
              && negb (bool_decide (status safety_eval = "CRITICAL"))).
    + apply list_elem_of_singleton in Hin. discriminate Hin.
    + apply elem_of_nil in Hin. exact Hin.
  - unfold deviation_warnings in Hin.
    destruct (anomaly_flag consumption_data).
    + apply list_elem_of_singleton in Hin. discriminate Hin.
    + apply elem_of_nil in Hin. exact Hin.
Qed.

(** X15.  On an assessment of the evaluator, the time-critical warning is
    emitted exactly when fuel is being burnt (a positive burn rate) and the
    time remaining that the assessment reports is below 30 s; at a burn
    rate that is zero or
    negative the reported time is the unbounded sentinel and the warning is
    never emitted. *)
Theorem time_critical_warning
    (fuel required burn_rate : Q) (consumption_data : ConsumptionData)
    (prediction : FuelPrediction) (self : MarsLandingFuelSystem) :
  exists (e : SafetyEvaluation) (a : AlertPackage),
    evaluate_safety_margins fuel required burn_rate self = Ok (e, self) /\
    generate_alerts e consumption_data prediction self = Ok (a, self) /\
    ("TIME CRITICAL: " +:+ format_1f_ext (time_remaining e) +:+ "s to depletion"
       ∈ warnings a
     <-> 0 < burn_rate /\
         exists t : Q, time_remaining e = Fin t /\ t < 30) /\
    (burn_rate <= 0 ->
       time_remaining e = PosInf /\
       forall amount : string,
         "TIME CRITICAL: " +:+ amount +:+ "s to depletion" ∉ warnings a).
Proof.
  destruct (evaluate_safety_margins_total fuel required burn_rate self)
    as (abort_fuel & _ & Heval).
  eexists.
  match type of Heval with
  | _ = Ok (?e, _) =>
      destruct (generate_alerts_warnings e consumption_data prediction self)
        as (a & Hrun & Hwarn & _)
  end.
  exists a. split; [exact Heval|]. split; [exact Hrun|].
  rewrite Hwarn. clear Hwarn. split.
  - rewrite time_warning_only_from_its_rule.
    unfold time_warnings. cbn [time_remaining]. unfold ALERT_THRESHOLD.
    destruct (0 <? burn_rate) eqn:Hrate; cbn [ext_lt_bool format_1f_ext].
    + apply Qlt_bool_iff in Hrate.
      destruct (fuel / burn_rate <? 30) eqn:Htime.
      * apply Qlt_bool_iff in Htime. rewrite list_elem_of_singleton.
        split; [|reflexivity].
        intros _. split; [exact Hrate|].
        exists (fuel / burn_rate). split; [reflexivity|exact Htime].
      * apply Qlt_bool_false_iff in Htime. rewrite elem_of_nil.
        split; [tauto|]. intros (_ & t & Ht & Hlt).
        injection Ht as <-. lra.
    + apply Qlt_bool_false_iff in Hrate. rewrite elem_of_nil.
      split; [tauto|]. intros [H _]. lra.
  - intros Hrate. cbn [time_remaining].
    rewrite (proj2 (Qlt_bool_false_iff 0 burn_rate) Hrate).
    split; [reflexivity|].
    intros amount. rewrite time_warning_only_from_its_rule.
    unfold time_warnings. cbn [time_remaining ext_lt_bool].
    apply not_elem_of_nil.
Qed.

(** *** The mission phase *)

(** X16.  Once the mission phase of the object is one the burn-rate table
    lists, it stays so whatever is called.  [set_mission_phase] stores a
    listed phase, leaves the whole object as it is on any other string, and
    in both cases touches no other attribute; a sensor update and a
    monitoring cycle leave the phase exactly as it was. *)
Theorem known_phase_invariant
    (phase : string) (fuel_delta altitude_delta velocity_delta current_time : Q)
    (stamp : string) (self : MarsLandingFuelSystem) :
  known_phase self ->
  (exists self' : MarsLandingFuelSystem,
     set_mission_phase phase self = Ok (tt, self') /\
     known_phase self' /\
     (is_Some (PHASE_BURN_RATES !! phase) -> mission_phase self' = phase) /\
     (PHASE_BURN_RATES !! phase = None -> self' = self) /\
     previous_fuel_mass self' = previous_fuel_mass self /\
     previous_timestamp self' = previous_timestamp self /\
     alert_history self' = alert_history self /\
     current_fuel_mass self' = current_fuel_mass self /\
     altitude self' = altitude self /\
     velocity self' = velocity self) /\
  (exists self' : MarsLandingFuelSystem,
     update_sensors fuel_delta altitude_delta velocity_delta self = Ok (tt, self') /\
     mission_phase self' = mission_phase self /\
     known_phase self') /\
  (exists (snap : Snapshot) (self' : MarsLandingFuelSystem),
     monitor_cycle current_time stamp self = Ok (snap, self') /\
     mission_phase self' = mission_phase self /\
     known_phase self').
Proof.
  intros Hknown. split; [|split].
  - unfold set_mission_phase.
    destruct (PHASE_BURN_RATES !! phase) as [rate|] eqn:Hphase.
    + eexists. split; [reflexivity|]. unfold known_phase.
      cbn [mission_phase previous_fuel_mass previous_timestamp alert_history
           current_fuel_mass altitude velocity].
      rewrite Hphase. split; [eexists; reflexivity|].
      split; [reflexivity|]. split; [discriminate|]. repeat split.
    + exists self. split; [reflexivity|]. split; [exact Hknown|].
      split; [intros [rate Hrate]; discriminate Hrate|]. repeat split.
  - eexists. split; [reflexivity|]. split; [reflexivity|]. exact Hknown.
  - destruct (monitor_cycle_values current_time stamp self)
      as (snap & self' & abort_fuel & Hrun & _ & Hvalues).
    cbv zeta in Hvalues.
    exists snap, self'. split; [exact Hrun|].
    destruct Hvalues as (_ & _ & _ & _ & _ & _ & _ & _ & _ & _ & _ & ->).
    split; [reflexivity|]. exact Hknown.
Qed.

Lemma known_phase_invariant_final_approach :
  (exists self' : MarsLandingFuelSystem,
     set_mission_phase "landing" (example_system 178 "final_approach" 450 12)
       = Ok (tt, self') /\
     known_phase self' /\
     (is_Some (PHASE_BURN_RATES !! "landing") -> mission_phase self' = "landing") /\
     (PHASE_BURN_RATES !! "landing" = None ->
        self' = example_system 178 "final_approach" 450 12) /\
     previous_fuel_mass self' = 178 /\
     previous_timestamp self' = 0 /\
     alert_history self' = [] /\
     current_fuel_mass self' = 178 /\
     altitude self' = 450 /\
     velocity self' = 12) /\
  (exists self' : MarsLandingFuelSystem,
     update_sensors (-3.0) (-50) (-2) (example_system 178 "final_approach" 450 12)
       = Ok (tt, self') /\
     mission_phase self' = "final_approach" /\
     known_phase self') /\
  (exists (snap : Snapshot) (self' : MarsLandingFuelSystem),
     monitor_cycle 0.5 "t" (example_system 178 "final_approach" 450 12)
       = Ok (snap, self') /\
     mission_phase self' = "final_approach" /\
     known_phase self').
Proof.
  apply (known_phase_invariant "landing" (-3.0) (-50) (-2) 0.5 "t"
           (example_system 178 "final_approach" 450 12)).
  eexists. reflexivity.
Defined.

(** X17.  The two tables agree: every maneuver that the table of remaining
    maneuvers lists for a phase is itself a phase of the burn-rate table,
    with the nominal rate that table gives it. *)
Theorem tables_agree_on_nominal_rates
    (phase : string) (maneuvers : list MissionPhase) (m : MissionPhase) :
  REMAINING_MANEUVERS !! phase = Some maneuvers ->
  m ∈ maneuvers ->
  PHASE_BURN_RATES !! name m = Some (nominal_burn_rate m).
Proof.
  intros Hlook Hin.
  assert (Hall : map_Forall
                   (fun _ l => Forall
                      (fun m => PHASE_BURN_RATES !! name m = Some (nominal_burn_rate m)) l)
                   REMAINING_MANEUVERS).
  { unfold REMAINING_MANEUVERS.
    repeat (apply map_Forall_insert_2; [repeat constructor|]).
    apply map_Forall_empty. }
  specialize (Hall phase maneuvers Hlook).
  rewrite Forall_forall in Hall. apply Hall. exact Hin.
Qed.

Lemma tables_agree_on_nominal_rates_landing :
  PHASE_BURN_RATES !! "landing" = Some 12.0.
Proof.
  apply (tables_agree_on_nominal_rates "final_approach"
           [mkMissionPhase "landing" 12.0 10 0.03]
           (mkMissionPhase "landing" 12.0 10 0.03)).
  - reflexivity.
  - apply list_elem_of_singleton. reflexivity.
Defined.

(** ** The driver *)

Lemma scenarios_well_formed :
  map_Forall
    (fun _ s => is_Some (PHASE_BURN_RATES !! App.sc_phase s)
                /\ 0 < App.sc_initialFuel s
                /\ App.sc_fuelDelta s < 0)
    App.SCENARIOS.
Proof.
  unfold App.SCENARIOS.
  repeat (apply map_Forall_insert_2;
          [split; [eexists; reflexivity|split; reflexivity]|]).
  apply map_Forall_empty.
Qed.

Lemma init_system_run (key : string) (s : App.Scenario) (now : Q) (st : App.State) :
  App.SCENARIOS !! key = Some s ->
  App.init_system key now st =
    (App.Return tt,
     App.mkState (Some (App.fresh_system s now)) (App.st_scenario st)
       (App.st_is_running st) 0%Z).
Proof.
  intros Hkey. unfold App.init_system, App.hbind, App.scenarios_item.
  rewrite Hkey. reflexivity.
Qed.

(** A poll of a valid state, step by step. *)
Lemma status_run
    (init_time current_time : Q) (stamp : string) (st : App.State) (s : App.Scenario) :
  App.SCENARIOS !! App.st_scenario st = Some s ->
  exists (before updated after : MarsLandingFuelSystem) (snap : Snapshot),
    before = match App.st_system st with
             | Some sys => sys
             | None => App.fresh_system s init_time
             end /\
    (if App.st_is_running st
     then update_sensors (App.sc_fuelDelta s) (-50) (-2) before = Ok (tt, updated)
     else updated = before) /\
    monitor_cycle current_time stamp updated = Ok (snap, after) /\
    App.status init_time current_time stamp st =
      (App.Return (App.StatusResponse (App.st_is_running st) (App.st_scenario st) snap),
       App.mkState (Some after) (App.st_scenario st) (App.st_is_running st)
         (match App.st_system st with
          | Some _ => App.st_tick st
          | None => 0
          end + 1)%Z).
Proof.
  intros Hscenario.
  set (before := match App.st_system st with
                 | Some sys => sys
                 | None => App.fresh_system s init_time
                 end).
  assert (Hupdate : exists updated : MarsLandingFuelSystem,
             update_sensors (App.sc_fuelDelta s) (-50) (-2) before = Ok (tt, updated))
    by (eexists; reflexivity).
  destruct Hupdate as (moved & Hupdate).
  set (updated := if App.st_is_running st then moved else before).
  destruct (monitor_cycle_stages current_time stamp updated)
    as (c & after & p & e & a & _ & _ & _ & _ & Hcycle).
  exists before, updated, after. eexists.
  split; [reflexivity|].
  split; [unfold updated; destruct (App.st_is_running st); [exact Hupdate|reflexivity]|].
  split; [exact Hcycle|].
  assert (Hstart :
            (match App.st_system st with
             | Some _ => App.hret tt
             | None => App.init_system (App.st_scenario st) init_time
             end) st
            = (App.Return tt,
               App.mkState (Some before) (App.st_scenario st) (App.st_is_running st)
                 (match App.st_system st with
                  | Some _ => App.st_tick st
                  | None => 0%Z
                  end))).
  { unfold before. destruct st as [[sys|] scenario running tick];
      cbn [App.st_system App.st_scenario App.st_is_running App.st_tick] in *.
    - reflexivity.
    - rewrite (init_system_run _ _ _ _ Hscenario). reflexivity. }
  unfold App.status, App.hbind at 1 2, App.get_state at 1.
  rewrite Hstart.
  unfold App.hbind at 1 2, App.get_state at 1.
  cbn [App.st_scenario App.st_is_running].
  unfold App.scenarios_item. rewrite Hscenario. unfold App.hret at 1.
  unfold App.hbind at 1.
  assert (Hmove :
            (if App.st_is_running st
             then App.on_system (update_sensors (App.sc_fuelDelta s) (-50) (-2))
             else App.hret tt)
              (App.mkState (Some before) (App.st_scenario st) (App.st_is_running st)
                 (match App.st_system st with
                  | Some _ => App.st_tick st
                  | None => 0%Z
                  end))
            = (App.Return tt,
               App.mkState (Some updated) (App.st_scenario st) (App.st_is_running st)
                 (match App.st_system st with
                  | Some _ => App.st_tick st
                  | None => 0%Z
                  end))).
  { unfold updated. destruct (App.st_is_running st).
    - unfold App.on_system. cbn [App.st_system App.st_scenario App.st_is_running
                                 App.st_tick].
      rewrite Hupdate. reflexivity.
    - reflexivity. }
  rewrite Hmove.
  unfold App.hbind at 1, App.on_system at 1. cbn [App.st_system].
  rewrite Hcycle. reflexivity.
Qed.

(** What the scenario route does once the request body has given a dict. *)
Lemma scenario_run
    (body : option App.json) (members : list (string * App.json)) (now : Q)
    (st : App.State) :
  match body with
  | Some j => if App.truthy j then j else App.JObject []
  | None => App.JObject []
  end = App.JObject members ->
  exists nominal : App.Scenario,
    App.SCENARIOS !! "nominal" = Some nominal /\
    App.scenario body now st =
      match App.members_get members "key" (App.JString "nominal") with
      | App.JArray _ | App.JObject _ => (App.Throw App.TypeError, st)
      | App.JString k =>
          match App.SCENARIOS !! k with
          | Some s =>
              (App.Return App.OkTrue,
               App.mkState (Some (App.fresh_system s now)) k (App.st_is_running st) 0%Z)
          | None =>
              (App.Return App.OkTrue,
               App.mkState (Some (App.fresh_system nominal now)) "nominal"
                 (App.st_is_running st) 0%Z)
          end
      | _ =>
          (App.Return App.OkTrue,
           App.mkState (Some (App.fresh_system nominal now)) "nominal"
             (App.st_is_running st) 0%Z)
      end.
Proof.
  intros Hdata.
  assert (Hnominal : exists nominal, App.SCENARIOS !! "nominal" = Some nominal)
    by (eexists; reflexivity).
  destruct Hnominal as (nominal & Hnominal).
  exists nominal. split; [exact Hnominal|].
  unfold App.scenario. rewrite Hdata.
  unfold App.json_get, App.hbind at 1, App.hret at 1.
  destruct (App.members_get members "key" (App.JString "nominal")) as [|b|q|k|items|ms];
    unfold App.not_in_scenarios, App.hbind at 1;
    try (unfold App.hret at 1; unfold App.hbind, App.get_state, App.set_scenario;
         cbn [App.st_system App.st_scenario App.st_is_running App.st_tick];
         rewrite (init_system_run _ _ _ _ Hnominal); reflexivity);
    try reflexivity.
  destruct (App.SCENARIOS !! k) as [s|] eqn:Hk.
  - unfold App.hret at 1. unfold App.hbind, App.get_state, App.set_scenario.
    cbn [App.st_system App.st_scenario App.st_is_running App.st_tick].
    rewrite (init_system_run _ _ _ _ Hk). reflexivity.
  - unfold App.hret at 1. unfold App.hbind, App.get_state, App.set_scenario.
    cbn [App.st_system App.st_scenario App.st_is_running App.st_tick].
    rewrite (init_system_run _ _ _ _ Hnominal). reflexivity.
Qed.

(** A body that is not a dict has no [get]. *)
Lemma scenario_not_a_dict (j : App.json) (now : Q) (st : App.State) :
  App.truthy j = true ->
  (forall members, j <> App.JObject members) ->
  App.scenario (Some j) now st = (App.Throw App.AttributeError, st).
Proof.
  intros Htruthy Hshape. unfold App.scenario. rewrite Htruthy.
  destruct j; try reflexivity.
  exfalso. exact (Hshape _ eq_refl).
Qed.

(** The body of a request either yields a dict or is something else that
    Python counts as true. *)
Lemma request_body_shape (body : option App.json) :
  (exists members,
     match body with
     | Some j => if App.truthy j then j else App.JObject []
     | None => App.JObject []
     end = App.JObject members)
  \/ (exists j, body = Some j /\ App.truthy j = true
                /\ forall members, j <> App.JObject members).
Proof.
  destruct body as [j|]; [|left; eexists; reflexivity].
  destruct (App.truthy j) eqn:Htruthy; [|left; eexists; reflexivity].
  destruct j; try (right; eexists; repeat split; [exact Htruthy|discriminate]).
  left. eexists. reflexivity.
Qed.


(** X19.  How the scenario route selects.  A request naming a listed
    scenario selects it; a request naming a string that is not listed, or
    carrying no body at all, selects ["nominal"]; and a body that Python
    counts as false is treated as no body. *)
Theorem app_scenario_selection (now : Q) (st : App.State) :
  (forall (members : list (string * App.json)) (k : string) (s : App.Scenario),
     App.members_get members "key" (App.JString "nominal") = App.JString k ->
     App.SCENARIOS !! k = Some s ->
     App.scenario (Some (App.JObject members)) now st =
       (App.Return App.OkTrue,
        App.mkState (Some (App.fresh_system s now)) k (App.st_is_running st) 0%Z)) /\
  (forall (members : list (string * App.json)) (k : string),
     App.members_get members "key" (App.JString "nominal") = App.JString k ->
     App.SCENARIOS !! k = None ->
     App.scenario (Some (App.JObject members)) now st = App.scenario None now st) /\
  (forall j : App.json,
     App.truthy j = false -> App.scenario (Some j) now st = App.scenario None now st) /\
  (exists nominal : App.Scenario,
     App.SCENARIOS !! "nominal" = Some nominal /\
     App.scenario None now st =
       (App.Return App.OkTrue,
        App.mkState (Some (App.fresh_system nominal now)) "nominal"
          (App.st_is_running st) 0%Z)).
Proof.
  assert (Hobject : forall members,
             match Some (App.JObject members) with
             | Some j => if App.truthy j then j else App.JObject []
             | None => App.JObject []
             end = App.JObject members).
  { intros [|member members]; reflexivity. }
  destruct (scenario_run None [] now st eq_refl) as (nominal & Hnominal & Hnone).
  cbn [App.members_get rev find] in Hnone.
  rewrite Hnominal in Hnone.
  split; [|split; [|split]].
  - intros members k s Hkey Hlisted.
    destruct (scenario_run (Some (App.JObject members)) members now st (Hobject members)) as (n & _ & Hrun).
    rewrite Hrun, Hkey, Hlisted. reflexivity.
  - intros members k Hkey Hunlisted.
    destruct (scenario_run (Some (App.JObject members)) members now st (Hobject members)) as (n & Hn & Hrun).
    rewrite Hrun, Hkey, Hunlisted, Hnone.
    rewrite Hnominal in Hn. injection Hn as <-. reflexivity.
  - intros j Hfalsy. unfold App.scenario. rewrite Hfalsy. reflexivity.
  - exists nominal. split; [exact Hnominal|exact Hnone].
Qed.

(** What a cycle leaves of the object. *)
Lemma monitor_cycle_leaves
    (current_time : Q) (stamp : string) (self self' : MarsLandingFuelSystem)
    (snap : Snapshot) :
  monitor_cycle current_time stamp self = Ok (snap, self') ->
  self' = {| previous_fuel_mass := current_fuel_mass self;
             previous_timestamp := current_time;
             mission_phase := mission_phase self;
             alert_history := alert_history self;
             current_fuel_mass := current_fuel_mass self;
             altitude := altitude self;
             velocity := velocity self |} /\
  snap_current_fuel snap = current_fuel_mass self /\
  snap_burn_rate snap =
    (previous_fuel_mass self - current_fuel_mass self)
      / effective_time_delta current_time self /\
  snap_anomaly_detected snap =
    (BURN_RATE_TOLERANCE <?
       Qabs (((previous_fuel_mass self - current_fuel_mass self)
                / effective_time_delta current_time self
              - dict_get PHASE_BURN_RATES (mission_phase self) 6.0)
             / dict_get PHASE_BURN_RATES (mission_phase self) 6.0)).
Proof.
  intros Hrun.
  destruct (monitor_cycle_values current_time stamp self)
    as (snap' & self'' & abort_fuel & Hrun' & _ & Hvalues).
  cbv zeta in Hvalues.
  rewrite Hrun in Hrun'. injection Hrun' as <- <-.
  destruct Hvalues as (Hrate & _ & Hflag & Hfuel & _ & _ & _ & _ & _ & _ & _ & Hself).
  repeat split; assumption.
Qed.

(** X20.  A poll of the status route on a state whose scenario is listed
    never raises.  It takes the object of the state, or builds one from the
    scenario if there is none; while the simulation runs it first applies
    [update_sensors] with the fuel delta of the scenario, -50 and -2; it
    then runs one [monitor_cycle] on that object and answers with the
    running flag, the scenario and the snapshot of that very cycle.  It
    stores the object the cycle leaves, keeps the scenario and the flag, and
    counts the poll: the tick is one more than before, and 1 when the
    object had to be built. *)
Theorem app_status_poll
    (init_time current_time : Q) (stamp : string) (st : App.State) :
  App.valid st ->
  exists (s : App.Scenario) (before updated sys' : MarsLandingFuelSystem)
         (snap : Snapshot),
    App.SCENARIOS !! App.st_scenario st = Some s /\
    before = match App.st_system st with
             | Some sys => sys
             | None => App.fresh_system s init_time
             end /\
    (if App.st_is_running st
     then update_sensors (App.sc_fuelDelta s) (-50) (-2) before = Ok (tt, updated)
     else updated = before) /\
    monitor_cycle current_time stamp updated = Ok (snap, sys') /\
    App.status init_time current_time stamp st =
      (App.Return (App.StatusResponse (App.st_is_running st) (App.st_scenario st) snap),
       App.mkState (Some sys') (App.st_scenario st) (App.st_is_running st)
         (match App.st_system st with
          | Some _ => App.st_tick st + 1
          | None => 1
          end)%Z) /\
    previous_fuel_mass sys' = current_fuel_mass sys' /\
    previous_timestamp sys' = current_time /\
    snap_current_fuel snap = current_fuel_mass sys'.
Proof.
  intros [s Hscenario].
  destruct (status_run init_time current_time stamp st s Hscenario)
    as (before & updated & after & snap & Hbefore & Hupdate & Hcycle & Hrun).
  exists s, before, updated, after, snap.
  split; [exact Hscenario|]. split; [exact Hbefore|]. split; [exact Hupdate|].
  split; [exact Hcycle|]. split.
  - rewrite Hrun. destruct (App.st_system st); reflexivity.
  - apply monitor_cycle_leaves in Hcycle as (-> & Hfuel & _).
    cbn [previous_fuel_mass current_fuel_mass previous_timestamp].
    repeat split. exact Hfuel.
Qed.

Lemma app_status_poll_first :
  exists (s : App.Scenario) (before updated sys' : MarsLandingFuelSystem)
         (snap : Snapshot),
    App.SCENARIOS !! "nominal" = Some s /\
    before = App.fresh_system s 0 /\
    updated = before /\
    monitor_cycle 0.5 "t" updated = Ok (snap, sys') /\
    App.status 0 0.5 "t" App.state =
      (App.Return (App.StatusResponse false "nominal" snap),
       App.mkState (Some sys') "nominal" false 1%Z) /\
    previous_fuel_mass sys' = current_fuel_mass sys' /\
    previous_timestamp sys' = 0.5 /\
    snap_current_fuel snap = current_fuel_mass sys'.
Proof.
  apply (app_status_poll 0 0.5 "t" App.state).
  eexists. reflexivity.
Defined.

(** X21.  What a poll does to the sensors of the object it finds.  While the
    simulation is paused they are left alone; while it runs, the fuel mass
    moves by the fuel delta of the scenario, the altitude by -50 and the
    velocity by -2, each clamped at zero. *)
Theorem app_status_sensors
    (init_time current_time : Q) (stamp : string) (st : App.State)
    (s : App.Scenario) (sys : MarsLandingFuelSystem) :
  App.SCENARIOS !! App.st_scenario st = Some s ->
  App.st_system st = Some sys ->
  exists (r : App.outcome App.response) (st' : App.State) (sys' : MarsLandingFuelSystem),
    App.status init_time current_time stamp st = (r, st') /\
    App.st_system st' = Some sys' /\
    mission_phase sys' = mission_phase sys /\
    (App.st_is_running st = false ->
       current_fuel_mass sys' = current_fuel_mass sys /\
       altitude sys' = altitude sys /\
       velocity sys' = velocity sys) /\
    (App.st_is_running st = true ->
       current_fuel_mass sys' == Qmax 0 (current_fuel_mass sys + App.sc_fuelDelta s) /\
       altitude sys' == Qmax 0 (altitude sys + -50) /\
       velocity sys' == Qmax 0 (velocity sys + -2)).
Proof.
  intros Hscenario Hsystem.
  destruct (status_run init_time current_time stamp st s Hscenario)
    as (before & updated & after & snap & Hbefore & Hupdate & Hcycle & Hrun).
  rewrite Hsystem in Hbefore. subst before.
  eexists. eexists. exists after. split; [exact Hrun|].
  cbn [App.st_system]. split; [reflexivity|].
  apply monitor_cycle_leaves in Hcycle as (-> & _).
  cbn [mission_phase current_fuel_mass altitude velocity].
  destruct (App.st_is_running st).
  - assert (Hmoved : updated =
                       {| previous_fuel_mass := previous_fuel_mass sys;
                          previous_timestamp := previous_timestamp sys;
                          mission_phase := mission_phase sys;
                          alert_history := alert_history sys;
                          current_fuel_mass :=
                            pymax 0 (current_fuel_mass sys + App.sc_fuelDelta s);
                          altitude := pymax 0 (altitude sys + -50);
                          velocity := pymax 0 (velocity sys + -2) |}).
    { assert (Hexplicit : update_sensors (App.sc_fuelDelta s) (-50) (-2) sys
                          = Ok (tt, {| previous_fuel_mass := previous_fuel_mass sys;
                                       previous_timestamp := previous_timestamp sys;
                                       mission_phase := mission_phase sys;
                                       alert_history := alert_history sys;
                                       current_fuel_mass :=
                                         pymax 0 (current_fuel_mass sys + App.sc_fuelDelta s);
                                       altitude := pymax 0 (altitude sys + -50);
                                       velocity := pymax 0 (velocity sys + -2) |}))
        by reflexivity.
      rewrite Hexplicit in Hupdate. injection Hupdate as <-. reflexivity. }
    rewrite Hmoved. cbn [mission_phase current_fuel_mass altitude velocity].
    split; [reflexivity|]. split; [discriminate|].
    intros _. rewrite <- !pymax_spec. repeat split; reflexivity.
  - subst updated. split; [reflexivity|]. split; [|discriminate].
    intros _. repeat split.
Qed.

Lemma app_status_sensors_running :
  exists (r : App.outcome App.response) (st' : App.State) (sys' : MarsLandingFuelSystem),
    App.status 0 0.5 "t"
      (App.mkState (Some (example_system 118 "landing" 95 3)) "emergency" true 7%Z)
      = (r, st') /\
    App.st_system st' = Some sys' /\
    mission_phase sys' = "landing" /\
    (true = false ->
       current_fuel_mass sys' = 118 /\ altitude sys' = 95 /\ velocity sys' = 3) /\
    (true = true ->
       current_fuel_mass sys' == Qmax 0 (118 + -6.0) /\
       altitude sys' == Qmax 0 (95 + -50) /\
       velocity sys' == Qmax 0 (3 + -2)).
Proof.
  apply (app_status_sensors 0 0.5 "t"
           (App.mkState (Some (example_system 118 "landing" 95 3)) "emergency" true 7%Z)
           (App.mkScenario "Depletion Imminent" 118 "landing" 95 3 (-6.0))
           (example_system 118 "landing" 95 3));
    reflexivity.
Defined.

(** X22.  The reset route on a listed scenario rebuilds the object from the
    scenario: fuel, altitude, velocity and phase of the table, the previous
    sample at the initial fuel, a phase the burn-rate table lists and a
    positive fuel mass; it stops the simulation and zeroes the tick.  On a
    scenario that is not listed it raises [KeyError] and leaves [state]. *)
Theorem app_reset (now : Q) (st : App.State) :
  (forall s : App.Scenario,
     App.SCENARIOS !! App.st_scenario st = Some s ->
     App.reset now st =
       (App.Return App.OkTrue,
        App.mkState (Some (App.fresh_system s now)) (App.st_scenario st) false 0%Z) /\
     known_phase (App.fresh_system s now) /\
     0 < current_fuel_mass (App.fresh_system s now)) /\
  (App.SCENARIOS !! App.st_scenario st = None ->
     App.reset now st = (App.Throw (App.KeyError (App.st_scenario st)), st)).
Proof.
  split.
  - intros s Hscenario.
    unfold App.reset, App.hbind at 1 2, App.get_state.
    rewrite (init_system_run _ _ _ _ Hscenario).
    split; [reflexivity|].
    destruct (scenarios_well_formed _ _ Hscenario) as (Hphase & Hfuel & _).
    split; [exact Hphase|exact Hfuel].
  - intros Hmissing.
    unfold App.reset, App.hbind at 1 2, App.get_state, App.init_system,
      App.hbind at 1, App.scenarios_item.
    rewrite Hmissing. reflexivity.
Qed.

(** X23.  The selected scenario is always one of the table: it is when the
    module is loaded, and every route, raising or not, leaves it so.  Hence
    the table lookups of the reset and status routes cannot fail. *)
Theorem app_scenario_always_listed
    (body : option App.json) (now init_time current_time : Q) (stamp : string)
    (st : App.State) :
  App.valid App.state /\
  (App.valid st ->
     App.valid (snd (App.start st)) /\
     App.valid (snd (App.pause st)) /\
     App.valid (snd (App.reset now st)) /\
     App.valid (snd (App.scenario body now st)) /\
     App.valid (snd (App.status init_time current_time stamp st))).
Proof.
  split; [eexists; reflexivity|].
  intros Hvalid. pose proof Hvalid as [s Hscenario].
  split; [exact Hvalid|]. split; [exact Hvalid|]. split; [|split].
  - unfold App.reset, App.hbind at 1 2, App.get_state.
    rewrite (init_system_run _ _ _ _ Hscenario). exact Hvalid.
  - destruct (request_body_shape body) as [(members & Hdata)|(j & -> & Htruthy & Hshape)].
    + destruct (scenario_run body members now st Hdata) as (nominal & Hnominal & Hrun).
      rewrite Hrun.
      destruct (App.members_get members "key" (App.JString "nominal"))
        as [|b|q|k|items|ms]; cbn [snd]; unfold App.valid; cbn [App.st_scenario];
        try (rewrite Hnominal; eexists; reflexivity); try exact Hvalid.
      destruct (App.SCENARIOS !! k) as [s'|] eqn:Hk; cbn [snd App.st_scenario].
      * rewrite Hk. eexists. reflexivity.
      * rewrite Hnominal. eexists. reflexivity.
    + rewrite (scenario_not_a_dict j now st Htruthy Hshape). exact Hvalid.
  - destruct (status_run init_time current_time stamp st s Hscenario)
      as (before & updated & after & snap & _ & _ & _ & Hrun).
    rewrite Hrun. exact Hvalid.
Qed.

Lemma app_scenario_always_listed_initially :
  App.valid App.state /\
  (App.valid (snd (App.start App.state)) /\
   App.valid (snd (App.pause App.state)) /\
   App.valid (snd (App.reset 0 App.state)) /\
   App.valid (snd (App.scenario (Some (App.JObject [("key", App.JString "critical")]))
                     0 App.state)) /\
   App.valid (snd (App.status 0 0.5 "t" App.state))).
Proof.
  destruct (app_scenario_always_listed
              (Some (App.JObject [("key", App.JString "critical")])) 0 0 0.5 "t" App.state)
    as (Hinit & Hkeep).
  split; [exact Hinit|]. apply Hkeep. exact Hinit.
Defined.

(** X24.  Two polls in a row while the simulation is paused: nothing has
    moved between them, so the second answers with a burn rate of 0 and the
    anomaly flag set, whatever the scenario and the times of the polls. *)
Theorem app_paused_polls
    (init_time first_time second_time : Q) (first_stamp second_stamp : string)
    (st : App.State) :
  App.valid st ->
  App.st_is_running st = false ->
  exists (snap : Snapshot) (st' : App.State),
    App.hbind (App.status init_time first_time first_stamp)
      (fun _ => App.status init_time second_time second_stamp) st
      = (App.Return (App.StatusResponse false (App.st_scenario st) snap), st') /\
    snap_burn_rate snap == 0 /\
    snap_anomaly_detected snap = true.
Proof.
  intros [s Hscenario] Hpaused.
  destruct (status_run init_time first_time first_stamp st s Hscenario)
    as (before & updated & after & snap1 & _ & _ & Hcycle1 & Hrun1).
  unfold App.hbind. rewrite Hrun1.
  match goal with
  | |- context [App.status _ _ _ ?st1] =>
      destruct (status_run init_time second_time second_stamp st1 s Hscenario)
        as (before2 & updated2 & after2 & snap2 & Hbefore2 & Hupdate2 & Hcycle2 & Hrun2)
  end.
  cbn [App.st_system App.st_is_running App.st_scenario] in Hbefore2, Hupdate2, Hrun2.
  rewrite Hpaused in Hupdate2. subst updated2 before2.
  exists snap2. eexists. split; [rewrite Hrun2, Hpaused; reflexivity|].
  apply monitor_cycle_leaves in Hcycle1 as (Hafter & _).
  apply monitor_cycle_leaves in Hcycle2 as (_ & _ & Hrate & Hflag).
  pose proof (effective_time_delta_pos second_time after) as Hdt.
  pose proof (nominal_rate_positive (mission_phase after)) as Hnom.
  assert (Hzero : (previous_fuel_mass after - current_fuel_mass after)
                    / effective_time_delta second_time after == 0).
  { assert (Hsame : previous_fuel_mass after = current_fuel_mass after)
      by (rewrite Hafter; reflexivity).
    rewrite Hsame. field. lra. }
  split; [rewrite Hrate; exact Hzero|].
  rewrite Hflag. apply Qlt_bool_iff.
  assert (Hdeviation :
            ((previous_fuel_mass after - current_fuel_mass after)
               / effective_time_delta second_time after
             - dict_get PHASE_BURN_RATES (mission_phase after) 6.0)
            / dict_get PHASE_BURN_RATES (mission_phase after) 6.0 == -1).
  { rewrite Hzero. field. lra. }
  rewrite Hdeviation. reflexivity.
Qed.

Lemma app_paused_polls_initially :
  exists (snap : Snapshot) (st' : App.State),
    App.hbind (App.status 0 0.5 "t") (fun _ => App.status 0 1 "u") App.state
      = (App.Return (App.StatusResponse false "nominal" snap), st') /\
    snap_burn_rate snap == 0 /\
    snap_anomaly_detected snap = true.
Proof.
  apply (app_paused_polls 0 0.5 1 "t" "u" App.state).
  - eexists. reflexivity.
  - reflexivity.
Defined.

(** ** The tolerance test in binary64 *)

Section Binary64Facts.

Import Floats.
#[local] Open Scope float_scope.
#[local] Set Warnings "-inexact-float".

(** Comparing the other way round gives the opposite answer. *)
Lemma SFcompare_antisym (x y : spec_float) :
  SFcompare y x = option_map CompOpp (SFcompare x y).
Proof.
  destruct x as [sx|sx| |sx mx ex], y as [sy|sy| |sy my ey];
    try reflexivity;
    try (destruct sx; reflexivity);
    try (destruct sy; reflexivity);
    try (destruct sx, sy; reflexivity).
  cbn [SFcompare option_map].
  rewrite (Z.compare_antisym ex ey).
  assert (Hm : Pos.compare_cont Eq my mx = CompOpp (Pos.compare_cont Eq mx my))
    by (rewrite Pos.compare_cont_antisym; reflexivity).
  rewrite Hm.
  destruct sx, sy; try reflexivity;
    destruct (ex ?= ey)%Z; cbn [CompOpp]; try reflexivity;
    destruct (Pos.compare_cont Eq mx my); reflexivity.
Qed.

(** A float that is not [<= 0] is not [== 0]: a divisor that passed the
    guard of the time delta cannot raise. *)
Lemma not_leb_zero_not_eqb_zero (x : float) :
  (x <=? 0) = false -> (x =? 0) = false.
Proof.
  rewrite leb_spec, FloatAxioms.eqb_spec. unfold SFleb, SFeqb.
  destruct (SFcompare _ _) as [[]|]; congruence.
Qed.

(** [x <= y] excludes [y < x]. *)
Lemma leb_true_ltb_false (x y : float) :
  (x <=? y) = true -> (y <? x) = false.
Proof.
  rewrite leb_spec, ltb_spec. unfold SFleb, SFltb.
  rewrite (SFcompare_antisym (Prim2SF x) (Prim2SF y)).
  destruct (SFcompare _ _) as [[]|]; cbn [option_map CompOpp]; congruence.
Qed.

(** [x == y] gives [x <= y]. *)
Lemma eqb_true_leb_true (x y : float) :
  (x =? y) = true -> (x <=? y) = true.
Proof.
  rewrite leb_spec, FloatAxioms.eqb_spec. unfold SFleb, SFeqb.
  destruct (SFcompare _ _) as [[]|]; congruence.
Qed.

(** Nothing is below the absolute value of a NaN. *)
Lemma ltb_abs_nan (bound d : float) :
  is_nan d = true -> (bound <? abs d) = false.
Proof.
  unfold is_nan. rewrite FloatAxioms.eqb_spec, ltb_spec, abs_spec.
  unfold SFeqb, SFltb.
  destruct (Prim2SF d) as [s|s| |s m e]; cbn [SFabs SFcompare negb].
  - discriminate.
  - destruct s; discriminate.
  - intros _. destruct (Prim2SF bound); reflexivity.
  - destruct s; rewrite Z.compare_refl, Pos.compare_cont_refl; discriminate.
Qed.

Lemma binary64_rates_positive :
  map_Forall (fun _ rate => (0 <? rate) = true /\ (rate =? 0) = false)
    Binary64.PHASE_BURN_RATES.
Proof.
  unfold Binary64.PHASE_BURN_RATES.
  repeat (apply map_Forall_insert_2; [split; reflexivity|]).
  apply map_Forall_empty.
Qed.

Lemma binary64_nominal_rate_positive (phase : string) :
  (0 <? dict_get Binary64.PHASE_BURN_RATES phase 6.0) = true /\
  (dict_get Binary64.PHASE_BURN_RATES phase 6.0 =? 0) = false.
Proof.
  unfold dict_get.
  destruct (Binary64.PHASE_BURN_RATES !! phase) as [rate|] eqn:Hlook.
  - exact (binary64_rates_positive phase rate Hlook).
  - split; reflexivity.
Qed.

Lemma binary64_time_delta_nonzero
    (current_time : float) (self : Binary64.MarsLandingFuelSystem) :
  (Binary64.effective_time_delta current_time self =? 0) = false.
Proof.
  unfold Binary64.effective_time_delta.
  destruct (current_time - Binary64.previous_timestamp self <=? 0) eqn:Hguard.
  - reflexivity.
  - apply not_leb_zero_not_eqb_zero. exact Hguard.
Qed.

(** In binary64 too the estimator returns for every reading, NaN and the
    infinities included.  Its result and the state it leaves are these. *)
Lemma binary64_calculate_burn_rate_total
    (fuel current_time : float) (self : Binary64.MarsLandingFuelSystem) :
  let rate := (Binary64.previous_fuel_mass self - fuel)
                / Binary64.effective_time_delta current_time self in
  let nominal := dict_get Binary64.PHASE_BURN_RATES (Binary64.mission_phase self) 6.0 in
  let deviation := (rate - nominal) / nominal in
  Binary64.calculate_burn_rate fuel current_time self =
    Ok ({| Binary64.actual_burn_rate := rate;
           Binary64.deviation_percent := deviation * 100;
           Binary64.anomaly_flag := Binary64.BURN_RATE_TOLERANCE <? abs deviation;
           Binary64.current_fuel := fuel |},
        {| Binary64.previous_fuel_mass := fuel;
           Binary64.previous_timestamp := current_time;
           Binary64.mission_phase := Binary64.mission_phase self;
           Binary64.alert_history := Binary64.alert_history self;
           Binary64.current_fuel_mass := Binary64.current_fuel_mass self;
           Binary64.altitude := Binary64.altitude self;
           Binary64.velocity := Binary64.velocity self |}).
Proof.
  intros rate nominal deviation.
  unfold Binary64.calculate_burn_rate, Binary64.bind, Binary64.get_self.
  fold (Binary64.effective_time_delta current_time self).
  unfold Binary64.truediv at 1.
  rewrite (binary64_time_delta_nonzero current_time self).
  unfold Binary64.ret at 1. fold rate. fold nominal.
  destruct (binary64_nominal_rate_positive (Binary64.mission_phase self))
    as (Hpos & Hnonzero).
  fold nominal in Hpos, Hnonzero.
  rewrite Hpos. unfold Binary64.truediv. rewrite Hnonzero.
  reflexivity.
Qed.

(** C4.  For every fuel reading, timestamp and state, the estimator
    returns, and its anomaly flag is set exactly when the absolute value of
    the deviation it computed, (rate - nominal) / nominal in binary64, is
    strictly above 0.15 in the comparison of the machine.  A deviation of
    exactly 0.15 in absolute value, and more generally one that is at most
    0.15, leaves the flag clear, and so does a deviation that is not a
    number. *)
Theorem calculate_burn_rate_anomaly_strict
    (fuel current_time : float) (self : Binary64.MarsLandingFuelSystem) :
  exists (c : Binary64.ConsumptionData) (self' : Binary64.MarsLandingFuelSystem),
    Binary64.calculate_burn_rate fuel current_time self = Ok (c, self') /\
    let nominal := dict_get Binary64.PHASE_BURN_RATES (Binary64.mission_phase self) 6.0 in
    let deviation := (Binary64.actual_burn_rate c - nominal) / nominal in
    Binary64.deviation_percent c = deviation * 100 /\
    (Binary64.anomaly_flag c = true <-> (0.15 <? abs deviation) = true) /\
    (abs deviation = 0.15 -> Binary64.anomaly_flag c = false) /\
    ((abs deviation <=? 0.15) = true -> Binary64.anomaly_flag c = false) /\
    (is_nan deviation = true -> Binary64.anomaly_flag c = false).
Proof.
  eexists. eexists. split; [apply binary64_calculate_burn_rate_total|].
  cbn [Binary64.actual_burn_rate Binary64.deviation_percent Binary64.anomaly_flag].
  unfold Binary64.BURN_RATE_TOLERANCE.
  split; [reflexivity|]. split; [reflexivity|]. split; [|split].
  - intros Hboundary. rewrite Hboundary. reflexivity.
  - apply leb_true_ltb_false.
  - apply ltb_abs_nan.
Qed.

(** Rounding at the edge of the tolerance.  69 kg burnt in 10 s against the
    nominal 6.0 kg/s is a deviation of 15 % on paper; the machine computes
    0.15000000000000005 and sets the flag.  So it does for the 34 kg in 5 s
    against 8.0 kg/s, where it computes -0.15000000000000002.  At the float
    just below 6.9 kg/s the deviation is 0.14999999999999991 and the flag is
    clear: between these two neighbours the computed deviation steps over
    0.15. *)
Example calculate_burn_rate_edge_of_tolerance :
  (exists self',
     Binary64.calculate_burn_rate 0 10 (Binary64.example_system 69 "constant_deceleration")
       = Ok ({| Binary64.actual_burn_rate := 6.9;
                Binary64.deviation_percent := 15.000000000000005;
                Binary64.anomaly_flag := true;
                Binary64.current_fuel := 0 |}, self')) /\
  (exists self',
     Binary64.calculate_burn_rate 0 5 (Binary64.example_system 34 "powered_descent")
       = Ok ({| Binary64.actual_burn_rate := 6.8;
                Binary64.deviation_percent := -15.000000000000002;
                Binary64.anomaly_flag := true;
                Binary64.current_fuel := 0 |}, self')) /\
  (exists self',
     Binary64.calculate_burn_rate 0 1
       (Binary64.example_system (next_down 6.9) "constant_deceleration")
       = Ok ({| Binary64.actual_burn_rate := next_down 6.9;
                Binary64.deviation_percent := 14.999999999999991;
                Binary64.anomaly_flag := false;
                Binary64.current_fuel := 0 |}, self')) /\
  (exists self',
     Binary64.calculate_burn_rate 0 10 (Binary64.example_system 65 "constant_deceleration")
       = Ok ({| Binary64.actual_burn_rate := 6.5;
                Binary64.deviation_percent := 8.3333333333333321;
                Binary64.anomaly_flag := false;
                Binary64.current_fuel := 0 |}, self')).
Proof.
  repeat split; eexists; vm_compute; reflexivity.
Qed.

End Binary64Facts.
